(** * Audit reporter: a shallow embedding of [audit.py]

    The development follows the pipeline of the program: extraction of
    transactions (PDF text, CSV rows, manually entered rows), aggregation
    over a date window, synthesis of the report text, sanitization of the
    text for the PDF writer, and the temporary file handed to the
    download widget.

    Python values are modelled as follows.
    - [str] is a list of Unicode code points ([N]).
    - [float] is IEEE 754 binary64, through the executable specification
      [SpecFloat] of the standard library (precision 53, emax 1024), so
      every float operation below rounds exactly as CPython does.
    - exceptions are an explicit [result] type; [try]/[except] is a match.
    - what the interpreter or a library computes outside this program
      (the clock, [hash], [float(str)], [repr(float)], full Unicode case
      mapping, the pandas ranking helpers) is a field of [Runtime]. *)

From Stdlib Require Import ZArith NArith List Bool Lia String Ascii.
From Stdlib Require Import Floats.SpecFloat DecimalN.
From stdpp Require Import base option list gmap.

Local Open Scope Z_scope.

(** ** Python strings *)

Abbreviation str := (list N).

Fixpoint lit (s : string) : str :=
  match s with
  | EmptyString => []
  | String a s' => N_of_ascii a :: lit s'
  end.
Arguments lit s%_string.

Definition NL : N := 10%N.

(** [s.startswith(p)] *)
Fixpoint is_prefix (p s : str) : bool :=
  match p, s with
  | [], _ => true
  | _ :: _, [] => false
  | a :: p', b :: s' => (a =? b)%N && is_prefix p' s'
  end.

(** [sub in s] *)
Fixpoint str_contains (sub s : str) : bool :=
  is_prefix sub s ||
  match s with
  | [] => false
  | _ :: s' => str_contains sub s'
  end.

(** [s.replace(old, new)] for a non-empty [old]: occurrences are taken
    left to right and do not overlap.  [skip] counts the characters of a
    replaced occurrence that are still to be passed over. *)
Fixpoint str_replace_from (old new : str) (skip : nat) (s : str) : str :=
  match s with
  | [] => []
  | c :: s' =>
      match skip with
      | S k => str_replace_from old new k s'
      | O =>
          if is_prefix old s
          then new ++ str_replace_from old new (length old - 1) s'
          else c :: str_replace_from old new 0 s'
      end
  end.

Definition str_replace (old new s : str) : str := str_replace_from old new 0 s.

(** [s.split(sep)] for a non-empty [sep]; [skip] as in [str_replace_from]. *)
Fixpoint str_split_from (sep : str) (skip : nat) (s : str) : list str :=
  match s with
  | [] => [[]]
  | c :: s' =>
      match skip with
      | S k => str_split_from sep k s'
      | O =>
          if is_prefix sep s
          then [] :: str_split_from sep (length sep - 1) s'
          else match str_split_from sep 0 s' with
               | [] => [[c]]
               | w :: ws => (c :: w) :: ws
               end
      end
  end.

Definition str_split (sep s : str) : list str := str_split_from sep 0 s.

(** [sep.join(parts)] *)
Fixpoint str_join (sep : str) (parts : list str) : str :=
  match parts with
  | [] => []
  | [p] => p
  | p :: ps => p ++ sep ++ str_join sep ps
  end.

(** [str.isspace] on one character: the code points CPython treats as
    white space. *)
Definition isspace (c : N) : bool :=
  ((9 <=? c) && (c <=? 13) || (28 <=? c) && (c <=? 32)
   || (c =? 133) || (c =? 160) || (c =? 5760)
   || (8192 <=? c) && (c <=? 8202)
   || (c =? 8232) || (c =? 8233) || (c =? 8239) || (c =? 8287)
   || (c =? 12288))%N.

Fixpoint lstrip (s : str) : str :=
  match s with
  | [] => []
  | c :: s' => if isspace c then lstrip s' else s
  end.

Definition rstrip (s : str) : str := rev (lstrip (rev s)).

(** [s.strip()] *)
Definition str_strip (s : str) : str := rstrip (lstrip s).

Definition is_ascii (s : str) : bool := forallb (fun c => (c <? 128)%N) s.

Definition ascii_upper (c : N) : N :=
  if ((97 <=? c) && (c <=? 122))%N then (c - 32)%N else c.

Definition ascii_lower (c : N) : N :=
  if ((65 <=? c) && (c <=? 90))%N then (c + 32)%N else c.

(** Decimal digits of a non-negative integer, most significant first. *)
Fixpoint digits_of_uint (d : Decimal.uint) : str :=
  match d with
  | Decimal.Nil => []
  | Decimal.D0 d => 48%N :: digits_of_uint d
  | Decimal.D1 d => 49%N :: digits_of_uint d
  | Decimal.D2 d => 50%N :: digits_of_uint d
  | Decimal.D3 d => 51%N :: digits_of_uint d
  | Decimal.D4 d => 52%N :: digits_of_uint d
  | Decimal.D5 d => 53%N :: digits_of_uint d
  | Decimal.D6 d => 54%N :: digits_of_uint d
  | Decimal.D7 d => 55%N :: digits_of_uint d
  | Decimal.D8 d => 56%N :: digits_of_uint d
  | Decimal.D9 d => 57%N :: digits_of_uint d
  end.

Definition digits_of_N (n : N) : str := digits_of_uint (N.to_uint n).

(** [str(z)] for an [int] *)
Definition str_of_Z (z : Z) : str :=
  match z with
  | Zneg p => 45%N :: digits_of_N (Npos p)
  | _ => digits_of_N (Z.to_N z)
  end.

(** Left padding with ['0'] to a width, as [%02d] does. *)
Definition zfill (width : nat) (s : str) : str :=
  replicate (width - length s) 48%N ++ s.

(** ** Exceptions *)

Inductive exn :=
  | KeyError (key : str)
  | ValueError (arg : str)
  | TypeError
  | UnicodeEncodeError
  | OSError.

Inductive result (A : Type) :=
  | Ok (a : A)
  | Raise (e : exn).
Arguments Ok {A} a.
Arguments Raise {A} e.

Global Instance result_ret : MRet result := fun A a => Ok a.
Global Instance result_bind : MBind result := fun A B f m =>
  match m with
  | Ok a => f a
  | Raise e => Raise e
  end.

(** ** Python floats: IEEE 754 binary64 *)

Abbreviation float64 := spec_float.

Definition fadd : float64 -> float64 -> float64 := SFadd 53 1024.
Definition fsub : float64 -> float64 -> float64 := SFsub 53 1024.
Definition fmul : float64 -> float64 -> float64 := SFmul 53 1024.
Definition fdiv : float64 -> float64 -> float64 := SFdiv 53 1024.

(** [x > y] and [x < y]; both are [False] when an operand is NaN. *)
Definition fgt (x y : float64) : bool := SFltb y x.
Definition flt (x y : float64) : bool := SFltb x y.

(** [float(z)] for an integer within the range of a float *)
Definition float_of_Z (z : Z) : float64 := binary_normalize 53 1024 z 0 false.

Definition fzero : float64 := S754_zero false.

(** The literal [0.3]: 0x1.3333333333333p-2. *)
Definition f0_3 : float64 := S754_finite false 5404319552844595 (-54).

Definition is_nan (x : float64) : bool :=
  match x with S754_nan => true | _ => false end.

(** *** Fixed-point formatting: [format(x, ".df")] and [format(x, ",.df")]

    CPython prints the exact binary value rounded to [d] decimals, ties to
    even.  A finite float is [m * 2^e], so the rounding is done on
    integers. *)

Definition scaled_round (d : nat) (m : positive) (e : Z) : N :=
  let num := Zpos m * 10 ^ Z.of_nat d in
  if 0 <=? e then Z.to_N (num * 2 ^ e)
  else
    let den := 2 ^ (- e) in
    let q := num / den in
    let r := num mod den in
    Z.to_N (if (den <? 2 * r) || ((den =? 2 * r) && Z.odd q) then q + 1 else q).

(** Thousands separators, working from the least significant digit. *)
Fixpoint group3_rev (k : nat) (ds : str) : str :=
  match ds with
  | [] => []
  | d :: ds' =>
      match k with
      | 3%nat => 44%N :: d :: group3_rev 1 ds'
      | _ => d :: group3_rev (S k) ds'
      end
  end.

Definition group3 (ds : str) : str := rev (group3_rev 0 (rev ds)).

Definition fixed_body (comma : bool) (d : nat) (q : N) : str :=
  let ds := zfill (S d) (digits_of_N q) in
  let ip := take (length ds - d) ds in
  let fp := drop (length ds - d) ds in
  (if comma then group3 ip else ip) ++
  match d with O => [] | _ => 46%N :: fp end.

Definition sign_str (s : bool) : str := if s then [45%N] else [].

Definition format_fixed (comma : bool) (d : nat) (x : float64) : str :=
  match x with
  | S754_nan => lit "nan"
  | S754_infinity s => sign_str s ++ lit "inf"
  | S754_zero s => sign_str s ++ fixed_body comma d 0
  | S754_finite s m e => sign_str s ++ fixed_body comma d (scaled_round d m e)
  end.

(** ** Calendar dates ([datetime.date]) *)

Record date := mkdate { year : Z; month : Z; day : Z }.

Definition is_leap (y : Z) : bool :=
  (y mod 4 =? 0) && (negb (y mod 100 =? 0) || (y mod 400 =? 0)).

Definition days_in_month (y m : Z) : Z :=
  if m =? 2 then (if is_leap y then 29 else 28)
  else if (m =? 4) || (m =? 6) || (m =? 9) || (m =? 11) then 30
  else 31.

Definition date_valid (y m d : Z) : bool :=
  (1 <=? y) && (y <=? 9999) && (1 <=? m) && (m <=? 12) &&
  (1 <=? d) && (d <=? days_in_month y m).

(** [a <= b] on dates *)
Definition date_leb (a b : date) : bool :=
  (year a <? year b) ||
  (year a =? year b) &&
    ((month a <? month b) || (month a =? month b) && (day a <=? day b)).

Definition days_before_year (y : Z) : Z :=
  let y1 := y - 1 in y1 * 365 + y1 / 4 - y1 / 100 + y1 / 400.

Fixpoint days_before_month_from (y : Z) (m : nat) : Z :=
  match m with
  | O => 0
  | S k => days_before_month_from y k + days_in_month y (Z.of_nat m)
  end.

Definition days_before_month (y m : Z) : Z :=
  days_before_month_from y (Z.to_nat (m - 1)).

Definition toordinal (d : date) : Z :=
  days_before_year (year d) + days_before_month (year d) (month d) + day d.

(** [(b - a).days] *)
Definition days_between (a b : date) : Z := toordinal b - toordinal a.

(** [str(d)]: ISO format, as the f-strings of the report print a date. *)
Definition isoformat (d : date) : str :=
  zfill 4 (str_of_Z (year d)) ++ lit "-" ++ zfill 2 (str_of_Z (month d))
  ++ lit "-" ++ zfill 2 (str_of_Z (day d)).

Definition is_digit (c : N) : bool := ((48 <=? c) && (c <=? 57))%N.
Definition in_range (lo hi c : N) : bool := ((lo <=? c) && (c <=? hi))%N.
Definition digit_val (c : N) : Z := Z.of_N (c - 48).

(** The month field of [strptime]: the alternatives [1[0-2]], [0[1-9]],
    [[1-9]], tried in this order. *)
Definition parse_month (s : str) : option (Z * str) :=
  match s with
  | a :: b :: r =>
      if ((a =? 49)%N && in_range 48 50 b) || ((a =? 48)%N && in_range 49 57 b)
      then Some (10 * digit_val a + digit_val b, r)
      else if in_range 49 57 a then Some (digit_val a, b :: r)
      else None
  | [a] => if in_range 49 57 a then Some (digit_val a, []) else None
  | [] => None
  end.

(** The day field: [3[0-1]], [[1-2]\d], [0[1-9]], [[1-9]], [ [1-9]]. *)
Definition parse_day (s : str) : option (Z * str) :=
  match s with
  | a :: b :: r =>
      if ((a =? 51)%N && in_range 48 49 b) || (in_range 49 50 a && is_digit b)
         || ((a =? 48)%N && in_range 49 57 b)
      then Some (10 * digit_val a + digit_val b, r)
      else if in_range 49 57 a then Some (digit_val a, b :: r)
      else if (a =? 32)%N && in_range 49 57 b then Some (digit_val b, r)
      else None
  | [a] => if in_range 49 57 a then Some (digit_val a, []) else None
  | [] => None
  end.

(** [datetime.strptime(s, "%Y-%m-%d").date()]; [None] stands for the
    [ValueError] raised on text that does not match, on text left over
    and on a day that does not exist.  Digits are the ASCII digits. *)
Definition strptime_ymd (s : str) : option date :=
  match s with
  | y1 :: y2 :: y3 :: y4 :: 45%N :: rest =>
      if is_digit y1 && is_digit y2 && is_digit y3 && is_digit y4 then
        let y := 1000 * digit_val y1 + 100 * digit_val y2
                 + 10 * digit_val y3 + digit_val y4 in
        match parse_month rest with
        | Some (m, 45%N :: rest') =>
            match parse_day rest' with
            | Some (d, []) =>
                if date_valid y m d then Some (mkdate y m d) else None
            | _ => None
            end
        | _ => None
        end
      else None
  | _ => None
  end.

(** ** What the program takes from its environment

    None of these is code of the program; each is used exactly where the
    source calls it. *)

Record Runtime := {
  (** [datetime.now().strftime("%Y-%m-%d")] *)
  today : str;
  (** [datetime.now().strftime('%d %b %Y %H:%M')] *)
  now_stamp : str;
  (** [hash(text)] *)
  str_hash : str -> Z;
  (** [float(s)] on a string; [None] is the [ValueError] *)
  float_of_str : str -> option float64;
  (** [repr(x)] of a finite non-zero float (shortest round-trip digits) *)
  repr_finite : float64 -> str;
  (** [s.upper()] and [s.lower()] on a string with non-ASCII characters *)
  unicode_upper : str -> str;
  unicode_lower : str -> str;
  (** [frame.groupby('vendor')['amount'].sum().nlargest(3).items()], from
      the (vendor, amount) pairs of the frame in row order *)
  top3_by_vendor : list (str * float64) -> list (str * float64);
  (** [value_counts()] of the vendor column: [(idxmax(), max())], [None]
      when there is no vendor to count *)
  vendor_mode : list str -> option (str * Z)
}.

(** [s.upper()] and [s.lower()]: on ASCII text only the letters change. *)
Definition str_upper (rt : Runtime) (s : str) : str :=
  if is_ascii s then map ascii_upper s else unicode_upper rt s.

Definition str_lower (rt : Runtime) (s : str) : str :=
  if is_ascii s then map ascii_lower s else unicode_lower rt s.

(** [str(x)] of a float *)
Definition str_of_float (rt : Runtime) (x : float64) : str :=
  match x with
  | S754_nan => lit "nan"
  | S754_infinity s => sign_str s ++ lit "inf"
  | S754_zero s => sign_str s ++ lit "0.0"
  | S754_finite _ _ _ => repr_finite rt x
  end.

(** [float(s)] on a string *)
Definition float_of_text (rt : Runtime) (s : str) : result float64 :=
  match float_of_str rt s with
  | Some x => Ok x
  | None => Raise (ValueError s)
  end.

(** ** The transaction model: [class Document] *)

Record Document := mkDocument {
  doc_id : str;
  doc_date : str;
  doc_vendor : str;
  doc_amount : float64;
  doc_gst : float64;
  doc_type : str
}.

(** ** Extraction from PDF text: [extract_data_from_pdf]

    The argument is the text of each page, as [page.extract_text()]
    returns it. *)

Definition RUPEE : N := 8377%N.

Record page_fields := mkfields {
  pf_vendor : str;
  pf_date : str;
  pf_amount : float64;
  pf_gst : float64
}.

(** [line.replace(label, "").replace("₹", "").replace(",", "").strip()] *)
Definition money_text (label line : str) : str :=
  str_strip (str_replace (lit ",") [] (str_replace [RUPEE] [] (str_replace label [] line))).

(** One turn of the loop over the lines of a page. *)
Definition scan_line (rt : Runtime) (f : page_fields) (line : str) : result page_fields :=
  if str_contains (lit "Vendor:") line then
    Ok (mkfields (str_strip (str_replace (lit "Vendor:") [] line))
                 (pf_date f) (pf_amount f) (pf_gst f))
  else if str_contains (lit "Date:") line then
    Ok (mkfields (pf_vendor f) (str_strip (str_replace (lit "Date:") [] line))
                 (pf_amount f) (pf_gst f))
  else if str_contains (lit "Total:") line then
    amount ← float_of_text rt (money_text (lit "Total:") line);
    Ok (mkfields (pf_vendor f) (pf_date f) amount (pf_gst f))
  else if str_contains (lit "GST:") line then
    gst ← float_of_text rt (money_text (lit "GST:") line);
    Ok (mkfields (pf_vendor f) (pf_date f) (pf_amount f) gst)
  else Ok f.

Fixpoint scan_lines (rt : Runtime) (f : page_fields) (lines : list str) : result page_fields :=
  match lines with
  | [] => Ok f
  | line :: rest => f' ← scan_line rt f line; scan_lines rt f' rest
  end.

Definition extract_page (rt : Runtime) (text : str) : result Document :=
  let lines := str_split [NL] text in
  let doc_id := lit "PDF-" ++ str_of_Z (str_hash rt text mod 1000000) in
  f ← scan_lines rt (mkfields (lit "Unknown") (today rt) fzero fzero) lines;
  let doc_type := if str_contains (lit "Invoice") text then lit "expense" else lit "income" in
  Ok (mkDocument doc_id (pf_date f) (pf_vendor f) (pf_amount f) (pf_gst f) doc_type).

(** The loop over the pages; an exception leaves the function, and the
    documents of the pages before it are lost with it. *)
Fixpoint extract_pages (rt : Runtime) (pages : list str) (documents : list Document)
  : result (list Document) :=
  match pages with
  | [] => Ok documents
  | text :: rest =>
      doc ← extract_page rt text;
      extract_pages rt rest (documents ++ [doc])
  end.

Definition extract_data_from_pdf (rt : Runtime) (pages : list str) : result (list Document) :=
  extract_pages rt pages [].

(** ** Extraction from tables: [extract_data_from_csv] and manual entry

    A row is what [iterrows()] yields: the cells by column name.  A cell
    holds a string, an integer, a float or a boolean; pandas stores a field
    that is empty in the file as the float NaN, and the data editor stores
    an empty cell as [None]. *)

Inductive cell :=
  | CStr (s : str)
  | CInt (z : Z)
  | CFloat (x : float64)
  | CBool (b : bool)
  | CNone.


Abbreviation Row := (gmap (list N) cell).

(** [str(c)] *)
Definition py_str (rt : Runtime) (c : cell) : str :=
  match c with
  | CStr s => s
  | CInt z => str_of_Z z
  | CFloat x => str_of_float rt x
  | CBool b => if b then lit "True" else lit "False"
  | CNone => lit "None"
  end.

(** [float(c)] *)
Definition py_float (rt : Runtime) (c : cell) : result float64 :=
  match c with
  | CStr s => float_of_text rt s
  | CInt z => Ok (float_of_Z z)
  | CFloat x => Ok x
  | CBool b => Ok (float_of_Z (if b then 1 else 0))
  | CNone => Raise TypeError
  end.

(** [row.get(key, default)] *)
Definition row_get (row : Row) (key : str) (dflt : cell) : cell :=
  default dflt (row !! key).


(** The body of the [try] in [extract_data_from_csv]; [i] is the index
    label of the row. *)
Definition csv_document (rt : Runtime) (i : nat) (row : Row) : result Document :=
  let id := py_str rt (row_get row (lit "id")
              (row_get row (lit "invoice_no")
                 (CStr (lit "CSV-" ++ str_of_Z (Z.of_nat i))))) in
  let date := py_str rt (row_get row (lit "date") (CStr (today rt))) in
  let vendor := py_str rt (row_get row (lit "vendor") (CStr (lit "Unknown"))) in
  amount ← py_float rt (row_get row (lit "amount") (CInt 0));
  gst ← py_float rt (row_get row (lit "gst") (CInt 0));
  let type := str_lower rt (py_str rt (row_get row (lit "type") (CStr (lit "expense")))) in
  Ok (mkDocument id date vendor amount gst type).

(** The loop over the rows.  [warnings] records each [st.warning] call by
    the row index and the exception it reports. *)
Fixpoint csv_rows (rt : Runtime) (i : nat) (rows : list Row)
    (documents : list Document) (warnings : list (nat * exn))
  : list Document * list (nat * exn) :=
  match rows with
  | [] => (documents, warnings)
  | row :: rest =>
      match csv_document rt i row with
      | Ok doc => csv_rows rt (S i) rest (documents ++ [doc]) warnings
      | Raise e => csv_rows rt (S i) rest documents (warnings ++ [(i, e)])
      end
  end.

Definition extract_data_from_csv (rt : Runtime) (rows : list Row)
  : list Document * list (nat * exn) :=
  csv_rows rt 0 rows [] [].




(** ** Aggregation and report synthesis: [generate_audit_report] *)

(** The body of the filtering loop: the [try] parses the date, and the
    bare [except] skips the document. *)
Definition in_window (start_date end_date : date) (doc : Document) : bool :=
  match strptime_ymd (doc_date doc) with
  | Some doc_date => date_leb start_date doc_date && date_leb doc_date end_date
  | None => false
  end.

Definition filter_by_date (start_date end_date : date) (documents : list Document)
  : list Document :=
  List.filter (in_window start_date end_date) documents.

(** *** The pandas frame built from the filtered documents

    [pd.DataFrame([vars(d) for d in docs])] takes its columns from the
    keys of the records: a frame built from no record has no column. *)

Record DataFrame := mkframe {
  columns : list str;
  records : list Document
}.

Definition Document_columns : list str :=
  [lit "id"; lit "date"; lit "vendor"; lit "amount"; lit "gst"; lit "type"].

Definition DataFrame_of_records (docs : list Document) : DataFrame :=
  mkframe (match docs with [] => [] | _ :: _ => Document_columns end) docs.

(** [df.empty] *)
Definition df_empty (df : DataFrame) : bool :=
  match columns df, records df with
  | _ :: _, _ :: _ => false
  | _, _ => true
  end.

(** [df[name]] raises [KeyError] on a name that is not a column. *)
Definition require_column (df : DataFrame) (name : str) : result unit :=
  if bool_decide (name ∈ columns df) then Ok tt else Raise (KeyError name).

(** [df[df['type'] == ty]] *)
Definition where_type (df : DataFrame) (ty : str) : result DataFrame :=
  _ ← require_column df (lit "type");
  Ok (mkframe (columns df)
        (List.filter (fun d => bool_decide (doc_type d = ty)) (records df))).

(** [Series.sum()]: NaN entries are skipped; the additions are written
    here from the first row to the last, starting from [0.0]. *)
Definition series_sum (xs : list float64) : float64 :=
  fold_left (fun acc x => if is_nan x then acc else fadd acc x) xs fzero.

(** [df['amount'].sum()] *)
Definition amount_sum (df : DataFrame) : result float64 :=
  _ ← require_column df (lit "amount");
  Ok (series_sum (map doc_amount (records df))).

(** [df['vendor']] *)
Definition vendor_column (df : DataFrame) : result (list str) :=
  _ ← require_column df (lit "vendor");
  Ok (map doc_vendor (records df)).

Definition f100 : float64 := float_of_Z 100.
Definition f70 : float64 := float_of_Z 70.
Definition f15 : float64 := float_of_Z 15.

(** *** The block "Calculate financials" *)

Record Metrics := mkMetrics {
  total_invoices : nat;
  total_income : float64;
  total_expense : float64;
  net_balance : float64;
  expense_ratio : float64;
  profit_margin : float64;
  duration_days : Z
}.

(** The [else 0] of the two ratios is written [0.0]: the value is only
    formatted with [.1f] and compared with a number afterwards. *)
Definition financials (start_date end_date : date) (filtered_docs : list Document)
  : result Metrics :=
  let df := DataFrame_of_records filtered_docs in
  let total_invoices := length filtered_docs in
  income_df ← where_type df (lit "income");
  total_income ← amount_sum income_df;
  expense_df ← where_type df (lit "expense");
  total_expense ← amount_sum expense_df;
  let net_balance := fsub total_income total_expense in
  let expense_ratio :=
    if fgt total_income fzero
    then fmul (fdiv total_expense total_income) f100 else fzero in
  let profit_margin :=
    if fgt total_income fzero
    then fmul (fdiv (fsub total_income total_expense) total_income) f100
    else fzero in
  let duration_days := days_between start_date end_date + 1 in
  Ok (mkMetrics total_invoices total_income total_expense net_balance
        expense_ratio profit_margin duration_days).

(** *** GST compliance *)

Definition gst_tokens : list str := [lit "GST"; lit "INV"; lit "BILL"].

(** [any(x in doc.id.upper() for x in ['GST', 'INV', 'BILL'])] *)
Definition has_token (rt : Runtime) (id : str) : bool :=
  existsb (fun x => str_contains x (str_upper rt id)) gst_tokens.

(** [doc.gst > doc.amount * 0.3] *)
Definition gst_unusual (doc : Document) : bool :=
  fgt (doc_gst doc) (fmul (doc_amount doc) f0_3).

(** The findings one document adds to [gst_issues]. *)
Definition doc_issues (rt : Runtime) (doc : Document) : list str :=
  (if negb (has_token rt (doc_id doc))
   then [lit "Invalid document ID: " ++ doc_id doc] else [])
  ++
  (if gst_unusual doc
   then [lit "Unusual GST amount: Rs." ++ str_of_float rt (doc_gst doc)
         ++ lit " on Rs." ++ str_of_float rt (doc_amount doc)]
   else []).

Definition gst_docs_of (filtered_docs : list Document) : list Document :=
  List.filter (fun doc => fgt (doc_gst doc) fzero) filtered_docs.

Definition gst_issues_of (rt : Runtime) (gst_docs : list Document) : list str :=
  flat_map (doc_issues rt) gst_docs.

(** The built-in [sum] over the GST amounts, from the integer [0]. *)
Definition total_gst_of (gst_docs : list Document) : float64 :=
  fold_left fadd (map doc_gst gst_docs) fzero.

Definition bullet (s : str) : str := lit "- " ++ s ++ [NL].

(** [for issue in gst_issues[:3]: report += f"- {issue}\n"] *)
Definition issue_lines (gst_issues : list str) : str :=
  concat (map bullet (take 3 gst_issues)).

Definition gst_section (rt : Runtime) (filtered_docs : list Document) : str :=
  let gst_docs := gst_docs_of filtered_docs in
  [NL] ++ lit "## GST Compliance" ++ [NL; NL] ++
  match gst_docs with
  | _ :: _ =>
      lit "- **Total GST Processed**: Rs."
      ++ format_fixed true 2 (total_gst_of gst_docs) ++ [NL] ++
      match gst_issues_of rt gst_docs with
      | _ :: _ => [NL] ++ lit "### GST Issues" ++ [NL]
                  ++ issue_lines (gst_issues_of rt gst_docs)
      | [] => []
      end
  | [] => lit "- No GST-related transactions found" ++ [NL]
  end.

(** *** The other sections *)

Definition summary_section (business_name : str) (start_date end_date : date)
    (m : Metrics) : str :=
  lit "# " ++ business_name ++ lit " - Audit Report" ++ [NL]
  ++ lit "## Period: " ++ isoformat start_date ++ lit " to " ++ isoformat end_date
  ++ lit " (" ++ str_of_Z (duration_days m) ++ lit " days)" ++ [NL; NL]
  ++ lit "## Executive Summary" ++ [NL; NL]
  ++ lit "- **Financial Overview**: Net balance of Rs."
  ++ format_fixed true 2 (net_balance m) ++ lit " "
  ++ lit "(Income: Rs." ++ format_fixed true 2 (total_income m)
  ++ lit ", Expenses: Rs." ++ format_fixed true 2 (total_expense m) ++ lit ")" ++ [NL]
  ++ lit "- **Profit Margin**: " ++ format_fixed false 1 (profit_margin m) ++ lit "%" ++ [NL]
  ++ lit "- **Expense Ratio**: " ++ format_fixed false 1 (expense_ratio m)
  ++ lit "% of income" ++ [NL]
  ++ lit "- **Transactions Processed**: " ++ str_of_Z (Z.of_nat (total_invoices m))
  ++ [NL; NL].

Definition vendor_line (va : str * float64) : str :=
  lit "- " ++ va.1 ++ lit ": Rs." ++ format_fixed true 2 va.2 ++ [NL].

Definition vendor_amounts (df : DataFrame) : list (str * float64) :=
  map (fun d => (doc_vendor d, doc_amount d)) (records df).

Definition cash_flow_section (rt : Runtime) (df : DataFrame) : result str :=
  if df_empty df then Ok (lit "## Cash Flow Analysis" ++ [NL; NL])
  else
    income_df ← where_type df (lit "income");
    expense_df ← where_type df (lit "expense");
    Ok (lit "## Cash Flow Analysis" ++ [NL; NL]
        ++ (if df_empty income_df then []
            else lit "### Income Sources" ++ [NL]
                 ++ concat (map vendor_line (top3_by_vendor rt (vendor_amounts income_df))))
        ++ (if df_empty expense_df then []
            else [NL] ++ lit "### Major Expenses" ++ [NL]
                 ++ concat (map vendor_line (top3_by_vendor rt (vendor_amounts expense_df))))).

Definition insights_section (rt : Runtime) (df : DataFrame) (m : Metrics) : result str :=
  if df_empty df then Ok ([NL] ++ lit "## AI Insights" ++ [NL; NL])
  else
    vendors ← vendor_column df;
    Ok ([NL] ++ lit "## AI Insights" ++ [NL; NL]
        ++ match vendor_mode rt vendors with
           | Some (main_vendor, count) =>
               lit "- **Vendor Concentration**: " ++ main_vendor ++ lit " appears "
               ++ str_of_Z count ++ lit " times" ++ [NL]
           | None => []
           end
        ++ (if fgt (expense_ratio m) f70
            then lit "- **Cost Alert**: High expense ratio ("
                 ++ format_fixed false 1 (expense_ratio m) ++ lit "%)" ++ [NL]
            else [])).

Definition recommendations_section (filtered_docs : list Document)
    (risk_flags : list str) (m : Metrics) : str :=
  [NL] ++ lit "## Recommendations" ++ [NL; NL]
  ++ lit "### Immediate Actions" ++ [NL]
  ++ (match gst_docs_of filtered_docs with
      | _ :: _ => lit "- Reconcile GST input credits" ++ [NL]
      | [] => []
      end)
  ++ (match risk_flags with
      | _ :: _ => lit "- Address compliance flags" ++ [NL]
      | [] => []
      end)
  ++ [NL] ++ lit "### Strategic Actions" ++ [NL]
  ++ (if flt (profit_margin m) f15 then lit "- Review pricing strategy" ++ [NL] else [])
  ++ (if (50 <? Z.of_nat (length filtered_docs))
      then lit "- Consider accounting software for better tracking" ++ [NL] else []).

Definition footer (rt : Runtime) : str :=
  [NL] ++ lit "*Report generated on " ++ now_stamp rt ++ lit "*".

Definition generate_audit_report (rt : Runtime) (business_name : str)
    (start_date end_date : date) (documents : list Document)
    (risk_flags : list str) : result str :=
  let filtered_docs := filter_by_date start_date end_date documents in
  let df := DataFrame_of_records filtered_docs in
  m ← financials start_date end_date filtered_docs;
  cash_flow ← cash_flow_section rt df;
  insights ← insights_section rt df m;
  Ok (summary_section business_name start_date end_date m
      ++ cash_flow
      ++ gst_section rt filtered_docs
      ++ insights
      ++ recommendations_section filtered_docs risk_flags m
      ++ footer rt).

(** ** Rendering: [create_pdf] *)

Inductive error_handler := Strict | Replace.

(** [text.encode('latin-1', errors)]: a code point above 255 has no byte. *)
Fixpoint encode_latin1 (errors : error_handler) (text : str) : result (list N) :=
  match text with
  | [] => Ok []
  | c :: rest =>
      b ← (if (c <? 256)%N then Ok c
           else match errors with
                | Replace => Ok 63%N
                | Strict => Raise UnicodeEncodeError
                end);
      bs ← encode_latin1 errors rest;
      Ok (b :: bs)
  end.

(** [bytes.decode('latin-1')]: every byte is the code point of its value. *)
Definition decode_latin1 (bytes : list N) : str := bytes.

(** The dictionary [replacements], in its order of insertion. *)
Definition replacements : list (str * str) :=
  [ ([128202%N], lit "[REPORT]"); ([128197%N], lit "[DATE]");
    ([128204%N], lit "[SUMMARY]"); ([128200%N], lit "[ANALYSIS]");
    ([129534%N], lit "[GST]"); ([129302%N], lit "[AI]");
    ([9989%N], lit "[CHECK]"); ([RUPEE], lit "Rs.");
    ([8216%N], [39%N]); ([8217%N], [39%N]);
    ([8220%N], [34%N]); ([8221%N], [34%N]);
    ([8211%N], lit "-"); ([8212%N], lit "-"); ([8230%N], lit "...") ].

Definition apply_replacements (reps : list (str * str)) (text : str) : str :=
  fold_left (fun t kv => str_replace kv.1 kv.2 t) reps text.

Definition clean_text (text : str) : result str :=
  bytes ← encode_latin1 Replace (apply_replacements replacements text);
  Ok (decode_latin1 bytes).

(** [pdf.cell(txt=...)] and [pdf.multi_cell(txt=...)]: the writer keeps
    the text, which has to fit its single-byte encoding. *)
Definition pdf_text (txt : str) : result str :=
  _ ← encode_latin1 Strict txt; Ok txt.

Definition nonblank (line : str) : bool :=
  match str_strip line with [] => false | _ :: _ => true end.

(** One turn of the loop over the sections: the texts written. *)
Definition section_texts (section : str) : result (list str) :=
  let parts := str_split [NL] section in
  title ← clean_text (hd [] parts);
  lines ← mapM clean_text (tl parts);
  let content := str_join [NL] lines in
  t ← pdf_text title;
  body ← mapM (fun line => pdf_text (str_strip line))
               (List.filter nonblank (str_split [NL] content));
  Ok (t :: body).

(** The texts handed to the PDF writer, in the order of the calls. *)
Definition pdf_texts (report_text business_name : str) (start_date end_date : date)
  : result (list str) :=
  head1 ← clean_text (business_name ++ lit " - Audit Report");
  t1 ← pdf_text head1;
  head2 ← clean_text (lit "Period: " ++ isoformat start_date ++ lit " to "
                      ++ isoformat end_date);
  t2 ← pdf_text head2;
  sections ← mapM section_texts (tl (str_split (lit "## ") report_text));
  Ok (t1 :: t2 :: concat sections).

(** The temporary files that exist, by path, with what was written. *)
Abbreviation Files := (gmap positive (list str)).

(** [create_pdf]: [NamedTemporaryFile(delete=False)] makes a file under a
    name not in use, [pdf.output] fills it, and its path is returned. *)
Definition create_pdf (report_text business_name : str) (start_date end_date : date)
    (files : Files) : Files * result positive :=
  match pdf_texts report_text business_name start_date end_date with
  | Raise e => (files, Raise e)
  | Ok texts =>
      let pdf_path := fresh (dom files) in
      (<[pdf_path := texts]> files, Ok pdf_path)
  end.

(** ** The end of [main]: the report is offered for download

    [consumer] stands for [st.download_button] reading the open file. *)
Definition hand_off (consumer : list str -> result unit) (files : Files)
    (pdf_path : positive) : result unit :=
  match files !! pdf_path with
  | Some content => consumer content
  | None => Raise OSError
  end.

Definition offer_download (consumer : list str -> result unit)
    (report business_name : str) (start_date end_date : date) (files : Files)
  : Files * result unit :=
  match create_pdf report business_name start_date end_date files with
  | (files1, Raise e) => (files1, Raise e)
  | (files1, Ok pdf_path) =>
      match hand_off consumer files1 pdf_path with
      | Raise e => (files1, Raise e)
      | Ok _ => (delete pdf_path files1, Ok tt)
      end
  end.

(** ** A runtime for running the model on examples

    It reads unsigned decimal integers as floats and fixes the clock; on
    the inputs of the examples below it agrees with CPython. *)

Fixpoint digits_value (acc : Z) (s : str) : option Z :=
  match s with
  | [] => Some acc
  | c :: s' => if is_digit c then digits_value (10 * acc + digit_val c) s' else None
  end.

Definition float_of_digits (s : str) : option float64 :=
  match s with
  | [] => None
  | _ :: _ => float_of_Z <$> digits_value 0 s
  end.

Definition example_runtime : Runtime := {|
  today := lit "2026-11-03";
  now_stamp := lit "03 Nov 2026 09:30";
  str_hash := fun s => Z.of_nat (length s);
  float_of_str := float_of_digits;
  repr_finite := format_fixed false 1;
  unicode_upper := fun s => s;
  unicode_lower := fun s => s;
  top3_by_vendor := take 3;
  vendor_mode := fun vs => match vs with [] => None | v :: _ => Some (v, 1) end
|}.

(** The first two rows of the sample grid of [main]. *)
Definition INV_101 : Document :=
  mkDocument (lit "INV-101") (lit "2023-06-05") (lit "Client A")
    (float_of_Z 150000) (float_of_Z 27000) (lit "income").

Definition GSTIN_AB123 : Document :=
  mkDocument (lit "GSTIN-AB123") (lit "2023-06-08") (lit "Supplier X")
    (float_of_Z 50000) (float_of_Z 9000) (lit "expense").

Definition june_2023 : date * date := (mkdate 2023 6 1, mkdate 2023 6 30).

(** ** Notions used in the statements, and sample data *)

(** [sub] occurs in [s] as a contiguous block. *)
Definition occurs_in (sub s : str) : Prop := ∃ a b, s = a ++ sub ++ b.

(** Replacing a one-character key is a substitution character by
    character. *)
Definition subst_char (k : N) (v : str) (c : N) : str :=
  if (k =? c)%N then v else [c].

Definition latin1_char (c : N) : N := if (c <? 256)%N then c else 63%N.

(** The characters [clean_text] has a substitute for. *)
Definition replaced_chars : list N := flat_map fst replacements.

(** What the sequence of replacements makes of one character. *)
Definition subst_all (reps : list (str * str)) (c : N) : str :=
  apply_replacements reps [c].

Definition sanitize_char (c : N) : str := map latin1_char (subst_all replacements c).

Definition of_type (ty : str) (docs : list Document) : list Document :=
  List.filter (fun d => bool_decide (doc_type d = ty)) docs.

Definition ratio_or_zero (total_income x : float64) : float64 :=
  if fgt total_income fzero then fmul (fdiv x total_income) f100 else fzero.

Definition INV_102 : Document :=
  mkDocument (lit "INV-102") (lit "2023-06-12") (lit "Client B")
    (float_of_Z 200000) (float_of_Z 36000) (lit "income").

(** [w] is [tok] up to the case of its letters, for a [tok] in capitals:
    each character is the capital itself or its small letter. *)
Definition same_letters (w tok : str) : Prop :=
  Forall2 (fun c t => c = t ∨ c = (t + 32)%N) w tok.

(** [id] mentions [tok] in whatever case. *)
Definition mentions (tok id : str) : Prop :=
  ∃ a w b, id = a ++ w ++ b ∧ same_letters w tok.

Definition capitals (tok : str) : Prop :=
  Forall (fun t => (65 <= t <= 90)%N) tok.

Definition X1_doc : Document :=
  mkDocument (lit "X1") (lit "2023-06-09") (lit "Supplier Y")
    (float_of_Z 1000) (float_of_Z 400) (lit "expense").

Definition row_income : Row :=
  {[ lit "id" := CStr (lit "INV-101"); lit "date" := CStr (lit "2023-06-05");
     lit "vendor" := CStr (lit "Client A"); lit "amount" := CInt 150000;
     lit "gst" := CInt 27000; lit "type" := CStr (lit "Income") ]}.

Definition row_bad_amount : Row :=
  {[ lit "id" := CStr (lit "INV-102"); lit "date" := CStr (lit "2023-06-12");
     lit "amount" := CStr (lit "abc"); lit "type" := CStr (lit "income") ]}.

Definition row_bare : Row :=
  {[ lit "invoice_no" := CInt 7; lit "amount" := CInt 120 ]}.

Definition page_bad_total : str :=
  lit "Invoice" ++ [NL] ++ lit "Vendor: Supplier X" ++ [NL] ++ lit "Total: abc".

Definition short_report : str :=
  lit "# Acme - Audit Report" ++ [NL] ++ lit "## Executive Summary" ++ [NL]
  ++ lit "- Net balance of Rs.100,000.00" ++ [NL].





(** ** The rest of [main]

    The widgets are left out; what [main] computes between them is kept. *)

(** [s.endswith(suffix)] *)
Definition str_endswith (suffix s : str) : bool :=
  is_prefix (rev suffix) (rev s).

(** An uploaded file: its name, and what the two readers make of its
    bytes ([pdfplumber.open] with [extract_text] on each page, and
    [pd.read_csv] with [iterrows]), each of which may raise. *)
Record UploadedFile := mkupload {
  up_name : str;
  up_pages : result (list str);
  up_table : result (list Row)
}.

(** The body of the [try] in the loop over the uploaded files: the
    documents to add to [all_docs], and the row warnings shown. *)
Definition process_file (rt : Runtime) (f : UploadedFile)
  : result (list Document * list (nat * exn)) :=
  if str_endswith (lit ".pdf") (str_lower rt (up_name f)) then
    pages ← up_pages f;
    docs ← extract_data_from_pdf rt pages;
    Ok (docs, [])
  else if str_endswith (lit ".csv") (str_lower rt (up_name f)) then
    rows ← up_table f;
    Ok (extract_data_from_csv rt rows)
  else Ok ([], []).

(** The loop over the uploaded files.  [errors] records each [st.error]
    call by the name of the file and the exception. *)
Fixpoint upload_loop (rt : Runtime) (uploaded_files : list UploadedFile)
    (all_docs : list Document) (errors : list (str * exn))
  : list Document * list (str * exn) :=
  match uploaded_files with
  | [] => (all_docs, errors)
  | f :: rest =>
      match process_file rt f with
      | Ok (docs, _) => upload_loop rt rest (all_docs ++ docs) errors
      | Raise e => upload_loop rt rest all_docs (errors ++ [(up_name f, e)])
      end
  end.

Definition upload_documents (rt : Runtime) (uploaded_files : list UploadedFile)
  : list Document * list (str * exn) :=
  upload_loop rt uploaded_files [] [].

(** [[flag.strip() for flag in risk_flags.split("\n") if flag.strip()]] *)
Definition parse_risk_flags (text : str) : list str :=
  map str_strip (List.filter nonblank (str_split [NL] text)).

(** What pressing the button leads to: the warning about missing data
    (followed by [st.stop()]), or the report shown and offered. *)
Inductive generated :=
  | NoData
  | Shown (report : str).

Definition generate_clicked (rt : Runtime) (consumer : list str → result unit)
    (business_name : str) (start_date end_date : date)
    (documents : list Document) (risk_flags : list str) (files : Files)
  : Files * result generated :=
  match documents with
  | [] => (files, Ok NoData)
  | _ :: _ =>
      match generate_audit_report rt business_name start_date end_date
              documents risk_flags with
      | Raise e => (files, Raise e)
      | Ok report =>
          match offer_download consumer report business_name
                  start_date end_date files with
          | (files', Raise e) => (files', Raise e)
          | (files', Ok _) => (files', Ok (Shown report))
          end
      end
  end.

(** ** Further notions used in the statements *)

(** The label under which [scan_line] parses a number on [line], if it
    does: the [Total:] and [GST:] branches come after [Vendor:] and
    [Date:]. *)
Definition amount_label (line : str) : option str :=
  if str_contains (lit "Vendor:") line then None
  else if str_contains (lit "Date:") line then None
  else if str_contains (lit "Total:") line then Some (lit "Total:")
  else if str_contains (lit "GST:") line then Some (lit "GST:")
  else None.

(** A date that exists, as every [datetime.date] is. *)
Definition valid_date (d : date) : Prop :=
  date_valid (year d) (month d) (day d) = true.

Definition latin1 (text : str) : Prop := Forall (fun c => (c < 256)%N) text.

(** A row with an amount and nothing that names it. *)
Definition row_bare_2 : Row := {[ lit "amount" := CInt 75; lit "gst" := CInt 5 ]}.


Definition page_invoice : str :=
  lit "Invoice 42" ++ [NL] ++ lit "Vendor: Supplier X" ++ [NL]
  ++ lit "Date: 2023-06-08" ++ [NL] ++ lit "Total: 50000" ++ [NL] ++ lit "GST: 9000".

(** A string that does not start with white space. *)
Definition starts_clean (s : str) : Prop :=
  match s with [] => True | c :: _ => isspace c = false end.

(** Checks used to run through the years, months and days of the
    calendar: the printed field has the digits the parser expects, and
    they give the number back. *)
Definition year_field_ok (y : Z) : bool :=
  match zfill 4 (str_of_Z y) with
  | [a; b; c; e] =>
      is_digit a && is_digit b && is_digit c && is_digit e
      && (1000 * digit_val a + 100 * digit_val b + 10 * digit_val c + digit_val e =? y)
  | _ => false
  end.

Definition month_field_ok (m : Z) : bool :=
  match zfill 2 (str_of_Z m) with
  | [a; b] =>
      (((a =? 49)%N && in_range 48 50 b) || ((a =? 48)%N && in_range 49 57 b))
      && (10 * digit_val a + digit_val b =? m)
  | _ => false
  end.

Definition day_field_ok (d : Z) : bool :=
  match zfill 2 (str_of_Z d) with
  | [a; b] =>
      (((a =? 51)%N && in_range 48 49 b) || (in_range 49 50 a && is_digit b)
       || ((a =? 48)%N && in_range 49 57 b))
      && (10 * digit_val a + digit_val b =? d)
  | _ => false
  end.

(** A document of a type that is neither of the two buckets. *)
Definition TRANSFER_1 : Document :=
  mkDocument (lit "INV-900") (lit "2023-06-20") (lit "Bank")
    (float_of_Z 7000) fzero (lit "transfer").

(** Two uploads: a ledger with one row, and a scanned invoice whose
    total does not parse. *)
Definition upload_ledger : UploadedFile :=
  mkupload (lit "ledger.csv") (Raise OSError) (Ok [row_income]).

Definition upload_bad_invoice : UploadedFile :=
  mkupload (lit "Scan.PDF") (Ok [page_bad_total]) (Raise OSError).

(** * Properties *)

(** ** Strings *)

Lemma is_prefix_spec (p s : str) : is_prefix p s = true ↔ ∃ r, s = p ++ r.
Proof.
  revert s. induction p as [|a p IH]; intros s; simpl.
  - split; eauto.
  - destruct s as [|b s].
    + split; [discriminate | intros [r Hr]; discriminate].
    + rewrite andb_true_iff, N.eqb_eq, IH. split.
      * intros [-> [r ->]]. eauto.
      * intros [r Hr]. injection Hr as -> ->. eauto.
Qed.

Lemma str_contains_spec (sub s : str) : str_contains sub s = true ↔ occurs_in sub s.
Proof.
  unfold occurs_in. induction s as [|c s IH].
  - simpl. rewrite orb_false_r, is_prefix_spec. split.
    + intros [r Hr]. exists [], r. exact Hr.
    + intros (a & b & Hab). destruct a; [eauto | discriminate].
  - cbn [str_contains]. rewrite orb_true_iff, is_prefix_spec, IH. split.
    + intros [[r Hr] | (a & b & ->)].
      * exists [], r. exact Hr.
      * exists (c :: a), b. reflexivity.
    + intros (a & b & Hab). destruct a as [|x a].
      * left. eauto.
      * right. injection Hab as -> ->. eauto.
Qed.

Lemma occurs_in_app (sub a b : str) : occurs_in sub (a ++ sub ++ b).
Proof. exists a, b. reflexivity. Qed.

Lemma occurs_in_elem (c : N) (s : str) : occurs_in [c] s ↔ c ∈ s.
Proof.
  split.
  - intros (a & b & ->). set_solver.
  - intros (a & b & ->)%list_elem_of_split. exists a, b. reflexivity.
Qed.

Lemma str_replace_char (k : N) (v s : str) :
  str_replace [k] v s = flat_map (subst_char k v) s.
Proof.
  unfold str_replace. induction s as [|c s IH]; [reflexivity|].
  cbn [str_replace_from flat_map length is_prefix Nat.sub]. unfold subst_char at 1.
  rewrite andb_true_r. destruct (k =? c)%N; simpl; rewrite IH; reflexivity.
Qed.

Lemma flat_map_flat_map {A B C} (f : A → list B) (g : B → list C) (l : list A) :
  flat_map g (flat_map f l) = flat_map (fun x => flat_map g (f x)) l.
Proof.
  induction l as [|x l IH]; [reflexivity|].
  simpl. rewrite flat_map_app, IH. reflexivity.
Qed.

Lemma flat_map_occurs {A} (f : A → str) (x : A) (l : list A) :
  x ∈ l → occurs_in (f x) (flat_map f l).
Proof.
  intros (a & b & ->)%list_elem_of_split.
  rewrite flat_map_app. simpl. apply occurs_in_app.
Qed.

(** ** Sanitization of the report text *)

Lemma encode_latin1_replace (text : str) :
  encode_latin1 Replace text = Ok (map latin1_char text).
Proof.
  induction text as [|c text IH]; [reflexivity|].
  cbn [encode_latin1 map]. rewrite IH. unfold latin1_char.
  destruct (c <? 256)%N; reflexivity.
Qed.

Lemma encode_latin1_strict (text : str) :
  Forall (fun c => (c < 256)%N) text → encode_latin1 Strict text = Ok text.
Proof.
  induction 1 as [|c text Hc _ IH]; [reflexivity|].
  cbn [encode_latin1]. rewrite IH.
  apply N.ltb_lt in Hc. rewrite Hc. reflexivity.
Qed.

Lemma latin1_char_bound (c : N) : (latin1_char c < 256)%N.
Proof. unfold latin1_char. destruct (N.ltb_spec c 256); lia. Qed.

Lemma apply_replacements_chars (reps : list (str * str)) (text : str) :
  Forall (fun kv => length kv.1 = 1%nat) reps →
  apply_replacements reps text = flat_map (subst_all reps) text.
Proof.
  intros Hreps. revert text.
  induction Hreps as [|[k v] reps Hk _ IH]; intros text.
  - unfold apply_replacements. simpl. induction text as [|c t IHt]; [reflexivity|].
    simpl. congruence.
  - destruct k as [|kc [|? ?]]; try discriminate.
    unfold subst_all, apply_replacements in *. cbn [fold_left fst snd].
    rewrite IH, str_replace_char, flat_map_flat_map.
    apply flat_map_ext. intros c. rewrite IH, str_replace_char.
    cbn [flat_map]. rewrite app_nil_r. reflexivity.
Qed.

Lemma replacements_single : Forall (fun kv => length kv.1 = 1%nat) replacements.
Proof. repeat constructor. Qed.

Lemma subst_all_other (reps : list (str * str)) (c : N) :
  Forall (fun kv => length kv.1 = 1%nat) reps →
  c ∉ flat_map fst reps → subst_all reps c = [c].
Proof.
  induction 1 as [|[k v] reps Hk _ IH]; intros Hc; [reflexivity|].
  destruct k as [|kc [|? ?]]; try discriminate.
  cbn [flat_map fst app] in Hc. apply not_elem_of_cons in Hc as [Hne Hc].
  unfold subst_all, apply_replacements in *. cbn [fold_left fst snd].
  rewrite str_replace_char. cbn [flat_map]. unfold subst_char.
  destruct (N.eqb_spec kc c); [congruence|]. simpl. apply IH, Hc.
Qed.

Lemma clean_text_chars (text : str) :
  clean_text text = Ok (flat_map sanitize_char text).
Proof.
  unfold clean_text.
  rewrite (apply_replacements_chars _ _ replacements_single).
  rewrite encode_latin1_replace. cbn [mbind result_bind].
  unfold decode_latin1, sanitize_char. f_equal.
  induction text as [|c t IH]; [reflexivity|].
  simpl. rewrite map_app, IH. reflexivity.
Qed.

Lemma flat_map_elem {A} (f : A → str) (x : A) (c : N) (l : list A) :
  x ∈ l → c ∈ f x → c ∈ flat_map f l.
Proof.
  intros (a & b & ->)%list_elem_of_split Hc.
  rewrite flat_map_app. simpl. set_solver.
Qed.

(** C7: the sanitization step never raises; its output holds [Rs.] for a
    rupee sign, a straight quote for a curly one and a hyphen for a dash;
    every character left outside Latin-1 has become a question mark, so
    the output fits the single-byte encoding of the PDF writer. *)
Theorem clean_text_substitutes (text : str) :
  ∃ out, clean_text text = Ok out
    ∧ Forall (fun c => (c < 256)%N) out
    ∧ pdf_text out = Ok out
    ∧ (RUPEE ∈ text → occurs_in (lit "Rs.") out)
    ∧ (8216%N ∈ text ∨ 8217%N ∈ text → 39%N ∈ out)
    ∧ (8220%N ∈ text ∨ 8221%N ∈ text → 34%N ∈ out)
    ∧ (8211%N ∈ text ∨ 8212%N ∈ text → 45%N ∈ out)
    ∧ (∀ c, c ∈ text → (256 <= c)%N → c ∉ replaced_chars → 63%N ∈ out).
Proof.
  exists (flat_map sanitize_char text).
  assert (Hlatin : Forall (fun c => (c < 256)%N) (flat_map sanitize_char text)).
  { induction text as [|c t IH]; [constructor|].
    simpl. apply Forall_app. split; [|exact IH].
    unfold sanitize_char. apply List.Forall_map, Forall_forall.
    intros x _. apply latin1_char_bound. }
  split; [apply clean_text_chars|].
  split; [exact Hlatin|].
  split; [unfold pdf_text; rewrite (encode_latin1_strict _ Hlatin); reflexivity|].
  split; [intros H; apply (flat_map_occurs sanitize_char _ _ H)|].
  split; [intros [H|H]; apply (flat_map_elem _ _ _ _ H); vm_compute; left|].
  split; [intros [H|H]; apply (flat_map_elem _ _ _ _ H); vm_compute; left|].
  split; [intros [H|H]; apply (flat_map_elem _ _ _ _ H); vm_compute; left|].
  intros c Hc Hge Hkey. apply (flat_map_elem _ _ _ _ Hc).
  unfold sanitize_char.
  rewrite (subst_all_other _ _ replacements_single Hkey). simpl.
  unfold latin1_char. destruct (N.ltb_spec c 256); [lia | left].
Qed.

Lemma clean_text_substitutes_witness :
  ∃ out, clean_text [RUPEE; 53%N; 8212%N; 8220%N; 22909%N] = Ok out
    ∧ occurs_in (lit "Rs.") out ∧ 45%N ∈ out ∧ 34%N ∈ out ∧ 63%N ∈ out.
Proof.
  destruct (clean_text_substitutes [RUPEE; 53%N; 8212%N; 8220%N; 22909%N])
    as (out & Hok & _ & _ & Hr & _ & Hq & Hd & Ho).
  exists out. split; [exact Hok|].
  split; [apply Hr; left|].
  split; [apply Hd; right; do 2 right; left|].
  split; [apply Hq; left; do 3 right; left|].
  apply (Ho 22909%N); [do 4 right; left | vm_compute; discriminate |].
  vm_compute. intros H. repeat (apply elem_of_cons in H as [H|H]; [discriminate|]).
  inversion H.
Defined.

(** ** The financial block *)

(** On a frame with at least one row the block runs through. *)
Lemma financials_nonempty (start_date end_date : date) (d : Document) (docs : list Document) :
  let income := series_sum (map doc_amount (of_type (lit "income") (d :: docs))) in
  let expense := series_sum (map doc_amount (of_type (lit "expense") (d :: docs))) in
  financials start_date end_date (d :: docs) =
    Ok (mkMetrics (length (d :: docs)) income expense (fsub income expense)
          (ratio_or_zero income expense)
          (ratio_or_zero income (fsub income expense))
          (days_between start_date end_date + 1)).
Proof. reflexivity. Qed.

(** On a frame without rows the first column access raises. *)
Lemma financials_empty (start_date end_date : date) :
  financials start_date end_date [] = Raise (KeyError (lit "type")).
Proof. reflexivity. Qed.

Lemma fgt_zero_false (x : float64) : SFeqb x fzero = true → fgt x fzero = false.
Proof. destruct x as [[]|[]| |[] m e]; cbv; congruence. Qed.

(** The guard [total_income > 0] of the two ratios: when the block runs
    through and the income total is zero, both ratios are zero. *)
Lemma ratios_guarded (start_date end_date : date) (docs : list Document) (m : Metrics) :
  financials start_date end_date docs = Ok m →
  SFeqb (total_income m) fzero = true →
  expense_ratio m = fzero ∧ profit_margin m = fzero.
Proof.
  destruct docs as [|d docs]; [discriminate|].
  rewrite financials_nonempty. intros [= <-]. simpl. intros H.
  unfold ratio_or_zero. rewrite (fgt_zero_false _ H). split; reflexivity.
Qed.

Lemma cash_flow_nonempty (rt : Runtime) (d : Document) (docs : list Document) :
  ∃ text, cash_flow_section rt (DataFrame_of_records (d :: docs)) = Ok text.
Proof. eexists. reflexivity. Qed.

Lemma insights_nonempty (rt : Runtime) (d : Document) (docs : list Document) (m : Metrics) :
  ∃ text, insights_section rt (DataFrame_of_records (d :: docs)) m = Ok text.
Proof. eexists. reflexivity. Qed.

(** With a document in the window the report is produced. *)
Lemma report_nonempty (rt : Runtime) (business_name : str) (start_date end_date : date)
    (documents : list Document) (risk_flags : list str) :
  filter_by_date start_date end_date documents ≠ [] →
  ∃ report, generate_audit_report rt business_name start_date end_date
              documents risk_flags = Ok report.
Proof.
  intros Hne. unfold generate_audit_report.
  destruct (filter_by_date start_date end_date documents) as [|d docs]; [congruence|].
  rewrite financials_nonempty. cbn [mbind result_bind].
  destruct (cash_flow_nonempty rt d docs) as [cf ->].
  cbn [mbind result_bind].
  match goal with |- context [insights_section rt ?df ?m] =>
    destruct (insights_nonempty rt d docs m) as [ins ->] end.
  eexists. reflexivity.
Qed.

(** C1 (the code departs from the claim): when no document falls in the
    date window, report generation does not yield a report with zero
    metrics and sentinel text; the frame built from the empty list has no
    column, and the first access to its [type] column raises [KeyError]. *)
Theorem empty_window_raises_KeyError (rt : Runtime) (business_name : str)
    (start_date end_date : date) (documents : list Document) (risk_flags : list str) :
  filter_by_date start_date end_date documents = [] →
  generate_audit_report rt business_name start_date end_date documents risk_flags
  = Raise (KeyError (lit "type")).
Proof.
  intros Hempty. unfold generate_audit_report. rewrite Hempty. reflexivity.
Qed.

Lemma empty_window_raises_KeyError_witness :
  filter_by_date (mkdate 2026 10 4) (mkdate 2026 11 3) [INV_101; GSTIN_AB123] = []
  ∧ generate_audit_report example_runtime (lit "Acme Enterprises")
      (mkdate 2026 10 4) (mkdate 2026 11 3) [INV_101; GSTIN_AB123]
      [lit "Verify GSTIN details"]
    = Raise (KeyError (lit "type")).
Proof.
  split; [reflexivity|].
  apply (empty_window_raises_KeyError example_runtime). reflexivity.
Defined.

(** C4 (the code departs from the claim): the sample grid of [main] with
    a window in 2026 has an empty filtered set, whose income total is
    zero, and the aggregator raises [KeyError] instead of returning zero
    ratios.  (With a row in the window the guard holds: [ratios_guarded].) *)
Theorem zero_income_empty_window_raises :
  let documents := [INV_101; GSTIN_AB123; INV_102] in
  let filtered_docs := filter_by_date (mkdate 2026 10 4) (mkdate 2026 11 3) documents in
  filtered_docs = []
  ∧ series_sum (map doc_amount (of_type (lit "income") filtered_docs)) = fzero
  ∧ financials (mkdate 2026 10 4) (mkdate 2026 11 3) filtered_docs
    = Raise (KeyError (lit "type")).
Proof. repeat split. Qed.

(** C2: the two sample transactions over June 2023 give income 150000,
    expense 50000, net balance 100000, a profit margin printed as 66.7
    and an expense ratio printed as 33.3, a GST total of 36000 and no
    compliance finding. *)
Theorem sample_scenario_metrics :
  let documents := [INV_101; GSTIN_AB123] in
  let filtered_docs := filter_by_date (mkdate 2023 6 1) (mkdate 2023 6 30) documents in
  filtered_docs = documents
  ∧ ∃ m, financials (mkdate 2023 6 1) (mkdate 2023 6 30) filtered_docs = Ok m
      ∧ total_income m = float_of_Z 150000
      ∧ total_expense m = float_of_Z 50000
      ∧ net_balance m = float_of_Z 100000
      ∧ profit_margin m = S754_finite false 4691249611844266 (-46)
      ∧ format_fixed false 1 (profit_margin m) = lit "66.7"
      ∧ expense_ratio m = S754_finite false 4691249611844266 (-47)
      ∧ format_fixed false 1 (expense_ratio m) = lit "33.3"
      ∧ total_gst_of (gst_docs_of filtered_docs) = float_of_Z 36000
      ∧ ∀ rt, gst_issues_of rt (gst_docs_of filtered_docs) = [].
Proof.
  split; [reflexivity|].
  eexists. split; [reflexivity|].
  repeat split; vm_compute; reflexivity.
Qed.

(** ** GST findings *)

Lemma ascii_upper_same_letters (w tok : str) :
  capitals tok → map ascii_upper w = tok ↔ same_letters w tok.
Proof.
  intros Hcap. revert w. induction Hcap as [|t tok Ht _ IH]; intros w.
  - split.
    + destruct w; [constructor | discriminate].
    + inversion 1. reflexivity.
  - destruct w as [|c w].
    + split; [discriminate | inversion 1].
    + cbn [map]. split.
      * intros [= Hc Hw]. constructor; [|apply IH, Hw].
        unfold ascii_upper in Hc.
        destruct (N.leb_spec 97 c), (N.leb_spec c 122); simpl in Hc; lia.
      * inversion 1 as [|? ? ? ? Hc Hw]; subst. f_equal; [|apply IH, Hw].
        unfold ascii_upper.
        destruct (N.leb_spec 97 c), (N.leb_spec c 122); simpl; lia.
Qed.

Lemma gst_tokens_capitals (x : str) : x ∈ gst_tokens → capitals x.
Proof.
  unfold gst_tokens. intros H.
  repeat (apply elem_of_cons in H as [->|H];
          [unfold capitals; simpl; repeat constructor; lia|]).
  inversion H.
Qed.

(** On an ASCII [id] the test of the source is a case-blind search. *)
Lemma token_search_ascii (rt : Runtime) (x id : str) :
  is_ascii id = true → capitals x →
  occurs_in x (str_upper rt id) ↔ mentions x id.
Proof.
  intros Hascii Hcap. unfold str_upper. rewrite Hascii. split.
  - intros (a' & b' & H).
    apply map_eq_app in H as (a & r & -> & <- & H).
    apply map_eq_app in H as (w & b & -> & Hw & <-).
    exists a, w, b. split; [reflexivity|].
    apply ascii_upper_same_letters; assumption.
  - intros (a & w & b & -> & Hw).
    apply ascii_upper_same_letters in Hw; [|assumption].
    exists (map ascii_upper a), (map ascii_upper b).
    rewrite !map_app, Hw. reflexivity.
Qed.

Lemma has_token_spec (rt : Runtime) (id : str) :
  has_token rt id = false ↔
  ∀ x, x ∈ gst_tokens → ¬ occurs_in x (str_upper rt id).
Proof.
  unfold has_token. rewrite <- not_true_iff_false, existsb_exists. split.
  - intros Hno x Hx Hocc. apply Hno. exists x.
    split; [apply list_elem_of_In, Hx | apply str_contains_spec, Hocc].
  - intros Hno (x & Hx & Hc). apply (Hno x).
    + apply list_elem_of_In, Hx.
    + apply str_contains_spec, Hc.
Qed.

(** A document adds a finding exactly when its id has no token or its
    GST is above [amount * 0.3]. *)
Lemma doc_issues_spec (rt : Runtime) (doc : Document) :
  (∃ f, f ∈ doc_issues rt doc) ↔
  (∀ x, x ∈ gst_tokens → ¬ occurs_in x (str_upper rt (doc_id doc)))
  ∨ fgt (doc_gst doc) (fmul (doc_amount doc) f0_3) = true.
Proof.
  rewrite <- has_token_spec. unfold doc_issues, gst_unusual.
  destruct (has_token rt (doc_id doc));
    destruct (fgt (doc_gst doc) (fmul (doc_amount doc) f0_3)); simpl.
  - split; [intros _; right; reflexivity | intros _; eexists; left].
  - split; [intros [f Hf]; inversion Hf | intros [H|H]; discriminate].
  - split; [intros _; left; reflexivity | intros _; eexists; left].
  - split; [intros _; left; reflexivity | intros _; eexists; left].
Qed.

Lemma gst_issues_elem (rt : Runtime) (gst_docs : list Document) (f : str) :
  f ∈ gst_issues_of rt gst_docs ↔ ∃ doc, doc ∈ gst_docs ∧ f ∈ doc_issues rt doc.
Proof.
  unfold gst_issues_of. rewrite list_elem_of_In, in_flat_map.
  split; intros (doc & H1 & H2); exists doc;
    (split; [apply list_elem_of_In, H1 | apply list_elem_of_In, H2]).
Qed.

Lemma insights_heading (rt : Runtime) (d : Document) (docs : list Document) (m : Metrics) :
  ∃ rest, insights_section rt (DataFrame_of_records (d :: docs)) m
          = Ok ([NL] ++ lit "## AI Insights" ++ rest).
Proof. eexists. reflexivity. Qed.

Lemma Ok_inj {A} (a b : A) : Ok a = Ok b → a = b.
Proof. intros H. congruence. Qed.

Lemma gst_section_issues (rt : Runtime) (filtered_docs : list Document) :
  let findings := gst_issues_of rt (gst_docs_of filtered_docs) in
  findings ≠ [] →
  ∃ pre, gst_section rt filtered_docs
         = pre ++ lit "### GST Issues" ++ [NL] ++ concat (map bullet (take 3 findings)).
Proof.
  intros findings Hne. unfold gst_section. subst findings.
  destruct (gst_docs_of filtered_docs) as [|g gs] eqn:Hg; [contradiction|].
  destruct (gst_issues_of rt (g :: gs)) as [|f fs] eqn:Hf; [contradiction|].
  eexists ([NL] ++ lit "## GST Compliance" ++ [NL; NL]
           ++ (lit "- **Total GST Processed**: Rs."
               ++ format_fixed true 2 (total_gst_of (g :: gs)) ++ [NL]) ++ [NL]).
  unfold issue_lines. rewrite <- !app_assoc. reflexivity.
Qed.

(** C3: in a report that is produced, a document of the GST subset
    (gst above zero) adds a finding exactly when no token GST, INV or BILL
    occurs in its upper-cased id (on an ASCII id: when the id mentions
    none of them in any case) or its gst exceeds amount * 0.3; the
    findings are those of the GST documents, and the report lists the
    first three of them under the heading, up to the next section.  The
    id X1 with gst 400 on 1000 is flagged, INV-1 with 250 on 1000 is not. *)
Theorem gst_findings (rt : Runtime) (business_name : str) (start_date end_date : date)
    (documents : list Document) (risk_flags : list str) (report : str) :
  generate_audit_report rt business_name start_date end_date documents risk_flags
  = Ok report →
  let gst_docs := gst_docs_of (filter_by_date start_date end_date documents) in
  let findings := gst_issues_of rt gst_docs in
  (∀ doc, doc ∈ gst_docs →
     fgt (doc_gst doc) fzero = true
     ∧ ((∃ f, f ∈ doc_issues rt doc) ↔
        (∀ x, x ∈ gst_tokens → ¬ occurs_in x (str_upper rt (doc_id doc)))
        ∨ fgt (doc_gst doc) (fmul (doc_amount doc) f0_3) = true)
     ∧ (is_ascii (doc_id doc) = true →
        ∀ x, x ∈ gst_tokens →
          occurs_in x (str_upper rt (doc_id doc)) ↔ mentions x (doc_id doc))
     ∧ (∀ f, f ∈ doc_issues rt doc → f ∈ findings))
  ∧ (∀ f, f ∈ findings → ∃ doc, doc ∈ gst_docs ∧ f ∈ doc_issues rt doc)
  ∧ (findings ≠ [] →
     ∃ pre post,
       report = pre ++ lit "### GST Issues" ++ [NL]
                ++ concat (map bullet (take 3 findings))
                ++ [NL] ++ lit "## AI Insights" ++ post)
  ∧ (length (take 3 findings) ≤ 3)%nat
  ∧ (∀ date vendor type,
       ∃ f, f ∈ doc_issues rt (mkDocument (lit "X1") date vendor
                                 (float_of_Z 1000) (float_of_Z 400) type))
  ∧ (∀ date vendor type,
       doc_issues rt (mkDocument (lit "INV-1") date vendor
                        (float_of_Z 1000) (float_of_Z 250) type) = []).
Proof.
  intros Hreport gst_docs findings.
  split.
  { intros doc Hdoc. split; [|split; [apply doc_issues_spec|split]].
    - apply list_elem_of_In, filter_In in Hdoc as [_ H]. exact H.
    - intros Hascii x Hx.
      apply token_search_ascii; [exact Hascii | apply gst_tokens_capitals, Hx].
    - intros f Hf. apply gst_issues_elem. eauto. }
  split; [intros f Hf; apply gst_issues_elem, Hf|].
  split.
  { intros Hne. unfold generate_audit_report in Hreport.
    destruct (gst_section_issues rt _ Hne) as [pre Hpre].
    fold gst_docs findings in Hpre.
    destruct (filter_by_date start_date end_date documents) as [|d docs] eqn:Hf.
    { discriminate. }
    rewrite financials_nonempty in Hreport. cbn [mbind result_bind] in Hreport.
    destruct (cash_flow_nonempty rt d docs) as [cf Hcf].
    rewrite Hcf in Hreport. cbn [mbind result_bind] in Hreport.
    match type of Hreport with context [insights_section rt ?df ?m] =>
      destruct (insights_heading rt d docs m) as [rest Hins] end.
    rewrite Hins in Hreport. cbn [mbind result_bind] in Hreport.
    apply Ok_inj in Hreport. subst report. rewrite Hpre.
    match goal with
    | |- ∃ _ _, ?s ++ cf ++ _ ++ _ ++ ?r ++ ?f = _ =>
        exists (s ++ cf ++ pre), (rest ++ r ++ f)
    end.
    rewrite <- !app_assoc. reflexivity. }
  split; [rewrite length_take; lia|].
  split.
  - intros dt vendor ty. eexists. vm_compute. left.
  - intros dt vendor ty. vm_compute. reflexivity.
Qed.

Lemma gst_findings_witness :
  ∃ report,
    generate_audit_report example_runtime (lit "Acme") (mkdate 2023 6 1)
      (mkdate 2023 6 30) [INV_101; X1_doc] [] = Ok report
    ∧ ∃ pre post,
        report = pre ++ lit "### GST Issues" ++ [NL]
                 ++ bullet (lit "Invalid document ID: X1")
                 ++ bullet (lit "Unusual GST amount: Rs.400.0 on Rs.1000.0")
                 ++ [NL] ++ lit "## AI Insights" ++ post.
Proof.
  destruct (report_nonempty example_runtime (lit "Acme") (mkdate 2023 6 1)
              (mkdate 2023 6 30) [INV_101; X1_doc] []) as [report Hreport].
  { vm_compute. discriminate. }
  exists report. split; [exact Hreport|].
  destruct (gst_findings _ _ _ _ _ _ _ Hreport) as (_ & _ & Hblock & _).
  destruct Hblock as (pre & post & Heq).
  { vm_compute. discriminate. }
  exists pre, post. rewrite Heq. reflexivity.
Defined.

(** ** Malformed amounts in the extractors *)

Lemma csv_rows_acc (rt : Runtime) (rows : list Row) (i : nat)
    (documents : list Document) (warnings : list (nat * exn)) :
  csv_rows rt i rows documents warnings
  = (documents ++ (csv_rows rt i rows [] []).1,
     warnings ++ (csv_rows rt i rows [] []).2).
Proof.
  revert i documents warnings.
  induction rows as [|row rest IH]; intros i documents warnings.
  - simpl. rewrite !app_nil_r. reflexivity.
  - cbn [csv_rows]. destruct (csv_document rt i row) as [doc|e].
    + rewrite (IH (S i) (documents ++ [doc])), (IH (S i) ([] ++ [doc])).
      cbn [fst snd]. rewrite <- app_assoc. reflexivity.
    + rewrite (IH (S i) documents), (IH (S i) [] ([] ++ [(i, e)])).
      cbn [fst snd]. rewrite <- app_assoc. reflexivity.
Qed.

Lemma csv_rows_app (rt : Runtime) (a b : list Row) (i : nat) :
  csv_rows rt i (a ++ b) [] []
  = ((csv_rows rt i a [] []).1 ++ (csv_rows rt (i + length a) b [] []).1,
     (csv_rows rt i a [] []).2 ++ (csv_rows rt (i + length a) b [] []).2).
Proof.
  revert i. induction a as [|row a IH]; intros i.
  - simpl. rewrite Nat.add_0_r. destruct (csv_rows rt i b [] []); reflexivity.
  - cbn [app csv_rows length]. destruct (csv_document rt i row) as [doc|e].
    + rewrite (csv_rows_acc rt (a ++ b)), (csv_rows_acc rt a), IH.
      cbn [fst snd]. rewrite Nat.add_succ_r, <- !app_assoc. reflexivity.
    + rewrite (csv_rows_acc rt (a ++ b)), (csv_rows_acc rt a), IH.
      cbn [fst snd]. rewrite Nat.add_succ_r, <- !app_assoc. reflexivity.
Qed.

(** A row whose amount cannot be coerced leaves the [try] by the
    exception of the coercion. *)
Lemma csv_document_bad_amount (rt : Runtime) (i : nat) (row : Row) (e : exn) :
  py_float rt (row_get row (lit "amount") (CInt 0)) = Raise e →
  csv_document rt i row = Raise e.
Proof. intros H. unfold csv_document. rewrite H. reflexivity. Qed.

Lemma scan_lines_raises (rt : Runtime) (line : str) (lines : list str) :
  line ∈ lines →
  (∀ f, ∃ e, scan_line rt f line = Raise e) →
  ∀ f, ∃ e, scan_lines rt f lines = Raise e.
Proof.
  intros Hin Hline. induction lines as [|l rest IH]; intros f.
  - inversion Hin.
  - cbn [scan_lines]. apply elem_of_cons in Hin as [<-|Hin].
    + destruct (Hline f) as [e ->]. eauto.
    + destruct (scan_line rt f l) as [f'|e]; [apply (IH Hin) | eauto].
Qed.

Lemma extract_pages_raises (rt : Runtime) (page : str) (pages : list str) :
  page ∈ pages →
  (∃ e, extract_page rt page = Raise e) →
  ∀ documents, ∃ e, extract_pages rt pages documents = Raise e.
Proof.
  intros Hin [e He]. induction pages as [|p rest IH]; intros documents.
  - inversion Hin.
  - cbn [extract_pages]. apply elem_of_cons in Hin as [<-|Hin].
    + rewrite He. eauto.
    + destruct (extract_page rt p) as [doc|e']; [apply (IH Hin) | eauto].
Qed.

(** C5: a CSV row whose amount cannot be coerced is skipped with a
    warning that carries its index, and the rows before and after it are
    extracted as they are without it, so no total sees it; in the PDF
    channel a line that reaches the [Total:] or [GST:] branch with a value
    that does not parse makes the extraction of the whole document raise. *)
Theorem malformed_amounts (rt : Runtime) :
  (∀ (pre : list Row) (row : Row) (post : list Row) (e : exn),
     py_float rt (row_get row (lit "amount") (CInt 0)) = Raise e →
     let before := extract_data_from_csv rt pre in
     let after := csv_rows rt (S (length pre)) post [] [] in
     extract_data_from_csv rt (pre ++ row :: post)
     = (before.1 ++ after.1, before.2 ++ (length pre, e) :: after.2))
  ∧ (∀ (pages : list str) (page line label : str),
     page ∈ pages → line ∈ str_split [NL] page →
     str_contains (lit "Vendor:") line = false →
     str_contains (lit "Date:") line = false →
     label = lit "Total:"
     ∨ label = lit "GST:" ∧ str_contains (lit "Total:") line = false →
     str_contains label line = true →
     float_of_str rt (money_text label line) = None →
     ∃ e, extract_data_from_pdf rt pages = Raise e).
Proof.
  split.
  - intros pre row post e Hbad before after. subst before after.
    unfold extract_data_from_csv. rewrite csv_rows_app. cbn [csv_rows Nat.add].
    rewrite (csv_document_bad_amount _ _ _ _ Hbad).
    rewrite (csv_rows_acc rt post). cbn [fst snd app]. reflexivity.
  - intros pages page line label Hpage Hline Hv Hd Hlabel Hc Hparse.
    apply (extract_pages_raises rt page pages Hpage).
    unfold extract_page.
    destruct (scan_lines_raises rt line (str_split [NL] page) Hline) with
      (f := mkfields (lit "Unknown") (today rt) fzero fzero) as [e ->];
      [|eauto].
    intros f. unfold scan_line. rewrite Hv, Hd.
    destruct Hlabel as [->|[-> Ht]].
    + rewrite Hc. unfold float_of_text. rewrite Hparse. eauto.
    + rewrite Ht, Hc. unfold float_of_text. rewrite Hparse. eauto.
Qed.

Lemma malformed_amounts_witness :
  (∃ d1 d2,
     extract_data_from_csv example_runtime ([row_income] ++ row_bad_amount :: [row_bare])
     = ([d1; d2], [(1%nat, ValueError (lit "abc"))]))
  ∧ ∃ e, extract_data_from_pdf example_runtime [lit "Invoice"; page_bad_total] = Raise e.
Proof.
  destruct (malformed_amounts example_runtime) as [Hcsv Hpdf]. split.
  - rewrite (Hcsv [row_income] row_bad_amount [row_bare] (ValueError (lit "abc")));
      [|vm_compute; reflexivity].
    eexists _, _. vm_compute. reflexivity.
  - apply (Hpdf _ page_bad_total (lit "Total: abc") (lit "Total:")).
    + right; left.
    + vm_compute. do 2 right; left.
    + vm_compute; reflexivity.
    + vm_compute; reflexivity.
    + left; reflexivity.
    + vm_compute; reflexivity.
    + vm_compute; reflexivity.
Defined.

(** ** The temporary file *)

Lemma create_pdf_fresh (report business_name : str) (start_date end_date : date)
    (files files1 : Files) (pdf_path : positive) :
  create_pdf report business_name start_date end_date files = (files1, Ok pdf_path) →
  files !! pdf_path = None
  ∧ ∃ texts, files1 = <[pdf_path := texts]> files.
Proof.
  unfold create_pdf.
  destruct (pdf_texts report business_name start_date end_date) as [texts|e];
    [|discriminate].
  intros [= <- <-]. split; [|eauto].
  apply not_elem_of_dom, is_fresh.
Qed.

(** C6, as amended: when the hand-off returns normally the temporary
    file, created under a name not in use, has been handed to the consumer
    and is gone afterwards, and the files are those there were before. *)
Theorem temp_file_deleted_after_hand_off (consumer : list str → result unit)
    (report business_name : str) (start_date end_date : date) (files files' : Files) :
  offer_download consumer report business_name start_date end_date files
  = (files', Ok tt) →
  ∃ pdf_path texts,
    files !! pdf_path = None
    ∧ create_pdf report business_name start_date end_date files
      = (<[pdf_path := texts]> files, Ok pdf_path)
    ∧ consumer texts = Ok tt
    ∧ files' !! pdf_path = None
    ∧ files' = files.
Proof.
  unfold offer_download.
  destruct (create_pdf report business_name start_date end_date files)
    as [files1 [pdf_path|e]] eqn:Hcreate; [|discriminate].
  destruct (create_pdf_fresh _ _ _ _ _ _ _ Hcreate) as [Hfresh [texts ->]].
  unfold hand_off. rewrite lookup_insert_eq.
  destruct (consumer texts) as [[]|e] eqn:Hc; [|discriminate].
  intros [= <-]. exists pdf_path, texts.
  rewrite delete_insert_id by exact Hfresh.
  repeat split; try assumption; reflexivity.
Qed.

Lemma temp_file_deleted_after_hand_off_witness :
  (offer_download (fun _ => Ok tt) short_report (lit "Acme")
     (mkdate 2023 6 1) (mkdate 2023 6 30) ∅).1 = ∅.
Proof.
  destruct (offer_download (fun _ => Ok tt) short_report (lit "Acme")
              (mkdate 2023 6 1) (mkdate 2023 6 30) ∅) as [files' r] eqn:Hrun.
  assert (Hr : r = Ok tt).
  { apply (f_equal snd) in Hrun. vm_compute in Hrun. congruence. }
  subst r.
  destruct (temp_file_deleted_after_hand_off _ _ _ _ _ _ _ Hrun)
    as (_ & _ & _ & _ & _ & _ & ->).
  reflexivity.
Defined.

(** C6, the claim as stated fails: when the hand-off raises, the call of
    [os.unlink] is not reached and the file written by [create_pdf] is
    still there. *)
Lemma hand_off_failure_keeps_file :
  let run := offer_download (fun _ => Raise OSError) short_report (lit "Acme")
               (mkdate 2023 6 1) (mkdate 2023 6 30) ∅ in
  ∃ pdf_path,
    (create_pdf short_report (lit "Acme") (mkdate 2023 6 1) (mkdate 2023 6 30) ∅).2
    = Ok pdf_path
    ∧ run.2 = Raise OSError
    ∧ is_Some (run.1 !! pdf_path).
Proof.
  exists 1%positive. split; [vm_compute; reflexivity|].
  split; [vm_compute; reflexivity|].
  vm_compute. eauto.
Qed.

(** ** From a table row to its bucket *)












(** ** Absent columns and empty cells *)









(** * Further properties of the program *)

(** ** The table extractors *)

Lemma csv_rows_cons (rt : Runtime) (k : nat) (row : Row) (rest : list Row) :
  csv_rows rt k (row :: rest) [] []
  = match csv_document rt k row with
    | Ok doc => (doc :: (csv_rows rt (S k) rest [] []).1,
                 (csv_rows rt (S k) rest [] []).2)
    | Raise e => ((csv_rows rt (S k) rest [] []).1,
                  (k, e) :: (csv_rows rt (S k) rest [] []).2)
    end.
Proof.
  cbn [csv_rows]. destruct (csv_document rt k row) as [doc|e];
    rewrite csv_rows_acc; reflexivity.
Qed.

Lemma csv_rows_length (rt : Runtime) (rows : list Row) (k : nat) :
  (length (csv_rows rt k rows [] []).1 + length (csv_rows rt k rows [] []).2
   = length rows)%nat.
Proof.
  revert k. induction rows as [|row rest IH]; intros k; [reflexivity|].
  rewrite csv_rows_cons. specialize (IH (S k)).
  destruct (csv_document rt k row); cbn [fst snd length]; lia.
Qed.

Lemma csv_rows_documents (rt : Runtime) (rows : list Row) (k : nat) (d : Document) :
  d ∈ (csv_rows rt k rows [] []).1
  ↔ ∃ j row, rows !! j = Some row ∧ csv_document rt (k + j) row = Ok d.
Proof.
  revert k. induction rows as [|row rest IH]; intros k.
  - simpl. split; [intros H; inversion H | intros (j & r & H & _); destruct j; discriminate].
  - rewrite csv_rows_cons. split.
    + intros Hd. destruct (csv_document rt k row) as [doc|e] eqn:Hrow; cbn [fst] in Hd.
      * apply elem_of_cons in Hd as [->|Hd].
        { exists 0%nat, row. rewrite Nat.add_0_r. split; [reflexivity | exact Hrow]. }
        apply IH in Hd as (j & r & Hj & Hr). exists (S j), r.
        rewrite Nat.add_succ_r. split; assumption.
      * apply IH in Hd as (j & r & Hj & Hr). exists (S j), r.
        rewrite Nat.add_succ_r. split; assumption.
    + intros (j & r & Hj & Hr). destruct j as [|j].
      * injection Hj as ->. rewrite Nat.add_0_r in Hr. rewrite Hr. left.
      * rewrite Nat.add_succ_r in Hr. cbn in Hj.
        assert (Hin : d ∈ (csv_rows rt (S k) rest [] []).1) by (apply IH; eauto).
        destruct (csv_document rt k row); cbn [fst]; [right|]; exact Hin.
Qed.

Lemma csv_rows_warnings (rt : Runtime) (rows : list Row) (k i : nat) (e : exn) :
  (i, e) ∈ (csv_rows rt k rows [] []).2
  ↔ ∃ j row, rows !! j = Some row ∧ i = (k + j)%nat
             ∧ csv_document rt i row = Raise e.
Proof.
  revert k. induction rows as [|row rest IH]; intros k.
  - simpl. split; [intros H; inversion H | intros (j & r & H & _); destruct j; discriminate].
  - rewrite csv_rows_cons. split.
    + intros Hw. destruct (csv_document rt k row) as [doc|e'] eqn:Hrow; cbn [snd] in Hw.
      * apply IH in Hw as (j & r & Hj & -> & Hr). exists (S j), r.
        rewrite Nat.add_succ_r. repeat split; assumption.
      * apply elem_of_cons in Hw as [[= -> ->]|Hw].
        { exists 0%nat, row. rewrite Nat.add_0_r. repeat split. exact Hrow. }
        apply IH in Hw as (j & r & Hj & -> & Hr). exists (S j), r.
        rewrite Nat.add_succ_r. repeat split; assumption.
    + intros (j & r & Hj & -> & Hr). destruct j as [|j].
      * injection Hj as ->. rewrite Nat.add_0_r in *. rewrite Hr. left.
      * rewrite Nat.add_succ_r in *. cbn in Hj.
        assert (Hin : (S (k + j), e) ∈ (csv_rows rt (S k) rest [] []).2).
        { apply IH. exists j, r. repeat split; assumption. }
        destruct (csv_document rt k row); cbn [snd]; [|right]; exact Hin.
Qed.

(** X1: the CSV extractor loses no row and invents none: every row gives
    either one document or one warning, the documents are exactly those
    of the rows that pass the [try], and the warnings name exactly the
    rows that raised, with the exception raised. *)
Theorem csv_rows_partition (rt : Runtime) (rows : list Row) :
  let documents := (extract_data_from_csv rt rows).1 in
  let warnings := (extract_data_from_csv rt rows).2 in
  (length documents + length warnings = length rows)%nat
  ∧ (∀ d, d ∈ documents
          ↔ ∃ i row, rows !! i = Some row ∧ csv_document rt i row = Ok d)
  ∧ (∀ i e, (i, e) ∈ warnings
            ↔ ∃ row, rows !! i = Some row ∧ csv_document rt i row = Raise e).
Proof.
  unfold extract_data_from_csv. split; [apply csv_rows_length|]. split.
  - intros d. apply csv_rows_documents.
  - intros i e. rewrite csv_rows_warnings. split.
    + intros (j & row & Hj & -> & Hr). eauto.
    + intros (row & Hi & Hr). exists i, row. repeat split; assumption.
Qed.

Lemma digits_of_uint_inj (a b : Decimal.uint) :
  digits_of_uint a = digits_of_uint b → a = b.
Proof.
  revert b. induction a; intros b H; destruct b; simpl in H;
    try discriminate; try reflexivity;
    injection H as H; f_equal; apply IHa; exact H.
Qed.

Lemma str_of_nat_inj (i j : nat) :
  str_of_Z (Z.of_nat i) = str_of_Z (Z.of_nat j) → i = j.
Proof.
  assert (Hn : ∀ n : nat, str_of_Z (Z.of_nat n) = digits_of_N (N.of_nat n)).
  { intros n. unfold str_of_Z. rewrite <- nat_N_Z, N2Z.id.
    destruct (Z.of_N (N.of_nat n)) eqn:Hz; try reflexivity. lia. }
  rewrite !Hn. unfold digits_of_N. intros H.
  apply digits_of_uint_inj, DecimalN.Unsigned.to_uint_inj in H. lia.
Qed.

(** X2: the ids made up for rows that have neither an [id] nor an
    [invoice_no] are distinct from row to row of one file. *)
Theorem csv_synthesized_ids_distinct (rt : Runtime) (i j : nat) (row1 row2 : Row)
    (d1 d2 : Document) :
  row1 !! lit "id" = None → row1 !! lit "invoice_no" = None →
  row2 !! lit "id" = None → row2 !! lit "invoice_no" = None →
  csv_document rt i row1 = Ok d1 → csv_document rt j row2 = Ok d2 →
  i ≠ j →
  doc_id d1 = lit "CSV-" ++ str_of_Z (Z.of_nat i)
  ∧ doc_id d2 = lit "CSV-" ++ str_of_Z (Z.of_nat j)
  ∧ doc_id d1 ≠ doc_id d2.
Proof.
  intros H1 H1' H2 H2' Hd1 Hd2 Hne.
  assert (Hid : ∀ k row d, row !! lit "id" = None → row !! lit "invoice_no" = None →
                 csv_document rt k row = Ok d →
                 doc_id d = lit "CSV-" ++ str_of_Z (Z.of_nat k)).
  { intros k row d Ha Hb. unfold csv_document.
    destruct (py_float rt (row_get row (lit "amount") (CInt 0))); [|discriminate].
    destruct (py_float rt (row_get row (lit "gst") (CInt 0))); [|discriminate].
    cbn [mbind result_bind]. intros H. apply Ok_inj in H. subst d.
    cbn [doc_id]. unfold row_get. rewrite Ha, Hb. reflexivity. }
  rewrite (Hid _ _ _ H1 H1' Hd1), (Hid _ _ _ H2 H2' Hd2).
  split; [reflexivity|]. split; [reflexivity|].
  intros Heq. apply app_inv_head, str_of_nat_inj in Heq. contradiction.
Qed.

Lemma csv_synthesized_ids_distinct_witness :
  ∃ d1 d2, extract_data_from_csv example_runtime [row_bare_2; row_bare_2] = ([d1; d2], [])
    ∧ doc_id d1 = lit "CSV-0" ∧ doc_id d2 = lit "CSV-1" ∧ doc_id d1 ≠ doc_id d2.
Proof.
  eexists _, _. split; [vm_compute; reflexivity|].
  match goal with |- doc_id ?a = _ ∧ doc_id ?b = _ ∧ _ =>
    destruct (csv_synthesized_ids_distinct example_runtime 0 1 row_bare_2 row_bare_2 a b)
      as (H1 & H2 & H3); [vm_compute; reflexivity .. | lia |] end.
  split; [exact H1|]. split; [exact H2 | exact H3].
Defined.




(** ** The PDF extractor *)

Lemma scan_line_Ok (rt : Runtime) (f : page_fields) (line : str) :
  (∃ f', scan_line rt f line = Ok f')
  ↔ ∀ label, amount_label line = Some label →
             float_of_str rt (money_text label line) ≠ None.
Proof.
  unfold scan_line, amount_label, float_of_text.
  destruct (str_contains (lit "Vendor:") line);
    [split; [intros _ ? [=] | eauto]|].
  destruct (str_contains (lit "Date:") line);
    [split; [intros _ ? [=] | eauto]|].
  destruct (str_contains (lit "Total:") line).
  { split.
    - intros [f' H] label Hl Hnone. apply (inj Some) in Hl. subst label.
      rewrite Hnone in H. discriminate.
    - intros H. destruct (float_of_str rt (money_text (lit "Total:") line)) eqn:E;
        [eexists; reflexivity | exfalso; apply (H _ eq_refl); exact E]. }
  destruct (str_contains (lit "GST:") line).
  { split.
    - intros [f' H] label Hl Hnone. apply (inj Some) in Hl. subst label.
      rewrite Hnone in H. discriminate.
    - intros H. destruct (float_of_str rt (money_text (lit "GST:") line)) eqn:E;
        [eexists; reflexivity | exfalso; apply (H _ eq_refl); exact E]. }
  split; [intros _ ? [=] | eauto].
Qed.

Lemma scan_lines_Ok (rt : Runtime) (lines : list str) (f : page_fields) :
  (∃ f', scan_lines rt f lines = Ok f')
  ↔ ∀ line label, line ∈ lines → amount_label line = Some label →
                  float_of_str rt (money_text label line) ≠ None.
Proof.
  revert f. induction lines as [|l rest IH]; intros f.
  - split; [intros _ ? ? H; inversion H | eexists; reflexivity].
  - cbn [scan_lines]. split.
    + intros [f' H] line label Hin.
      destruct (scan_line rt f l) as [f1|e] eqn:Hl; [|discriminate].
      apply elem_of_cons in Hin as [->|Hin].
      * apply (proj1 (scan_line_Ok rt f l)). eauto.
      * apply (proj1 (IH f1)); eauto.
    + intros H.
      destruct (proj2 (scan_line_Ok rt f l)) as [f1 ->].
      { intros label. apply H. left. }
      apply IH. intros line label Hin. apply H. right. exact Hin.
Qed.

Lemma extract_page_Ok (rt : Runtime) (page : str) :
  (∃ d, extract_page rt page = Ok d)
  ↔ ∀ line label, line ∈ str_split [NL] page → amount_label line = Some label →
                  float_of_str rt (money_text label line) ≠ None.
Proof.
  rewrite <- (scan_lines_Ok rt _ (mkfields (lit "Unknown") (today rt) fzero fzero)).
  unfold extract_page. split.
  - intros [d H]. destruct (scan_lines rt _ _) as [f|e]; [eauto | discriminate].
  - intros [f ->]. eexists. reflexivity.
Qed.

Lemma extract_pages_Forall2 (rt : Runtime) (pages : list str)
    (documents docs : list Document) :
  extract_pages rt pages documents = Ok docs
  ↔ ∃ new, docs = documents ++ new
           ∧ Forall2 (fun page d => extract_page rt page = Ok d) pages new.
Proof.
  revert documents. induction pages as [|page rest IH]; intros documents.
  - simpl. split.
    + intros H. apply Ok_inj in H. subst docs. exists [].
      rewrite app_nil_r. split; [reflexivity | constructor].
    + intros (new & -> & Hnew). inversion Hnew. rewrite app_nil_r. reflexivity.
  - cbn [extract_pages]. split.
    + destruct (extract_page rt page) as [doc|e] eqn:Hp; [|discriminate].
      cbn [mbind result_bind]. intros H.
      apply IH in H as (new & -> & Hnew). exists (doc :: new).
      rewrite <- app_assoc. split; [reflexivity | constructor; assumption].
    + intros (new & -> & Hnew). inversion Hnew as [|? d ? new' Hd Hrest]; subst.
      rewrite Hd. cbn [mbind result_bind]. apply IH. exists new'.
      rewrite <- app_assoc. split; [reflexivity | exact Hrest].
Qed.

(** X4: the PDF extractor returns its documents exactly when, on every
    page, every line that reaches the [Total:] or [GST:] branch carries a
    value that [float] accepts; nothing else makes it raise. *)
Theorem pdf_extraction_succeeds_iff (rt : Runtime) (pages : list str) :
  (∃ docs, extract_data_from_pdf rt pages = Ok docs)
  ↔ ∀ page line label,
      page ∈ pages → line ∈ str_split [NL] page →
      amount_label line = Some label →
      float_of_str rt (money_text label line) ≠ None.
Proof.
  unfold extract_data_from_pdf. split.
  - intros [docs H] page line label Hpage.
    apply extract_pages_Forall2 in H as (new & _ & Hnew).
    revert Hpage. induction Hnew as [|p d ps ds Hp _ IH]; intros Hpage.
    + inversion Hpage.
    + apply elem_of_cons in Hpage as [->|Hpage]; [|apply IH, Hpage].
      apply (proj1 (extract_page_Ok rt p)). eauto.
  - intros H.
    assert (Hall : ∃ new, Forall2 (fun page d => extract_page rt page = Ok d) pages new).
    { induction pages as [|p ps IH]; [exists []; constructor|].
      destruct IH as [new Hnew]; [intros; eapply H; eauto; right; assumption|].
      destruct (proj2 (extract_page_Ok rt p)) as [d Hd];
        [intros; eapply H; eauto; left|].
      exists (d :: new). constructor; assumption. }
    destruct Hall as [new Hnew]. exists new.
    apply extract_pages_Forall2. exists new. split; [reflexivity | exact Hnew].
Qed.

(** X5: when the PDF extractor returns, there is one document for each
    page, in the order of the pages; its id is [PDF-] followed by the
    hash of the page text modulo one million, and its type is [expense]
    when the text holds the word Invoice and [income] otherwise. *)
Theorem pdf_one_document_per_page (rt : Runtime) (pages : list str) (docs : list Document) :
  extract_data_from_pdf rt pages = Ok docs →
  length docs = length pages
  ∧ Forall2 (fun page d =>
       doc_id d = lit "PDF-" ++ str_of_Z (str_hash rt page mod 1000000)
       ∧ 0 <= str_hash rt page mod 1000000 < 1000000
       ∧ doc_type d = (if str_contains (lit "Invoice") page
                       then lit "expense" else lit "income"))
      pages docs.
Proof.
  unfold extract_data_from_pdf. intros H.
  apply extract_pages_Forall2 in H as (new & -> & Hnew). cbn [app].
  split; [symmetry; apply (Forall2_length _ _ _ Hnew)|].
  induction Hnew as [|p d ps ds Hp _ IH]; constructor; [|exact IH].
  unfold extract_page in Hp.
  destruct (scan_lines rt _ _) as [f|e]; [|discriminate].
  cbn [mbind result_bind] in Hp. apply Ok_inj in Hp. subst d. cbn [doc_id doc_type].
  split; [reflexivity|]. split; [apply Z.mod_pos_bound; lia | reflexivity].
Qed.

Lemma pdf_one_document_per_page_witness :
  ∃ d1 d2,
    extract_data_from_pdf example_runtime [page_invoice; lit "Receipt"] = Ok [d1; d2]
    ∧ doc_type d1 = lit "expense" ∧ doc_type d2 = lit "income".
Proof.
  eexists _, _. split; [vm_compute; reflexivity|].
  match goal with |- doc_type ?a = _ ∧ doc_type ?b = _ =>
    destruct (pdf_one_document_per_page example_runtime
                [page_invoice; lit "Receipt"] [a; b]) as [_ H];
      [vm_compute; reflexivity|] end.
  inversion H as [|? ? ? ? (_ & _ & H1) H']; subst.
  inversion H' as [|? ? ? ? (_ & _ & H2) _]; subst.
  split; [exact H1 | exact H2].
Defined.

Lemma scan_lines_no_label (rt : Runtime) (lines : list str) (f : page_fields) :
  (∀ line, line ∈ lines →
     str_contains (lit "Vendor:") line = false
     ∧ str_contains (lit "Date:") line = false
     ∧ str_contains (lit "Total:") line = false
     ∧ str_contains (lit "GST:") line = false) →
  scan_lines rt f lines = Ok f.
Proof.
  induction lines as [|l rest IH]; intros H; [reflexivity|].
  cbn [scan_lines]. destruct (H l) as (Hv & Hd & Ht & Hg); [left|].
  unfold scan_line. rewrite Hv, Hd, Ht, Hg. cbn [mbind result_bind].
  apply IH. intros line Hin. apply H. right. exact Hin.
Qed.

(** X6: a page without any of the four labels is not an error: it gives
    a document with the vendor Unknown, the date of the clock and zero
    amount and GST. *)
Theorem pdf_page_without_labels (rt : Runtime) (page : str) :
  (∀ line, line ∈ str_split [NL] page →
     str_contains (lit "Vendor:") line = false
     ∧ str_contains (lit "Date:") line = false
     ∧ str_contains (lit "Total:") line = false
     ∧ str_contains (lit "GST:") line = false) →
  extract_data_from_pdf rt [page]
  = Ok [mkDocument (lit "PDF-" ++ str_of_Z (str_hash rt page mod 1000000))
          (today rt) (lit "Unknown") fzero fzero
          (if str_contains (lit "Invoice") page then lit "expense" else lit "income")].
Proof.
  intros H. unfold extract_data_from_pdf. cbn [extract_pages]. unfold extract_page.
  rewrite (scan_lines_no_label rt _ _ H). reflexivity.
Qed.

Lemma pdf_page_without_labels_witness :
  extract_data_from_pdf example_runtime [lit "Receipt"]
  = Ok [mkDocument (lit "PDF-7") (lit "2026-11-03") (lit "Unknown") fzero fzero
          (lit "income")].
Proof.
  rewrite (pdf_page_without_labels example_runtime (lit "Receipt")).
  - vm_compute. reflexivity.
  - intros line Hline. vm_compute in Hline.
    apply elem_of_cons in Hline as [->|Hline]; [|inversion Hline].
    vm_compute. repeat split.
Defined.

(** ** Stripping and splitting *)

Lemma lstrip_suffix (s : str) :
  ∃ sp, s = sp ++ lstrip s ∧ forallb isspace sp = true.
Proof.
  induction s as [|c s (sp & IH & Hsp)]; [exists []; split; reflexivity|].
  cbn [lstrip]. destruct (isspace c) eqn:Hc.
  - exists (c :: sp). cbn [forallb app]. rewrite Hc, Hsp, <- IH. split; reflexivity.
  - exists []. split; reflexivity.
Qed.

Lemma lstrip_starts_clean (s : str) : starts_clean (lstrip s).
Proof.
  induction s as [|c s IH]; [exact I|].
  cbn [lstrip]. destruct (isspace c) eqn:Hc; [exact IH | exact Hc].
Qed.

Lemma lstrip_fixed (s : str) : starts_clean s → lstrip s = s.
Proof. destruct s as [|c s]; [reflexivity|]. simpl. intros ->. reflexivity. Qed.

Lemma rstrip_prefix (s : str) : ∃ sp, s = rstrip s ++ sp ∧ forallb isspace sp = true.
Proof.
  unfold rstrip. destruct (lstrip_suffix (rev s)) as (sp & H & Hsp).
  exists (rev sp). split.
  - rewrite <- rev_app_distr, <- H, rev_involutive. reflexivity.
  - rewrite forallb_forall in *. intros x Hx. apply Hsp, in_rev, Hx.
Qed.

Lemma str_strip_starts_clean (s : str) : starts_clean (str_strip s).
Proof.
  unfold str_strip. pose proof (lstrip_starts_clean s) as Hl.
  destruct (rstrip_prefix (lstrip s)) as (sp & H & _).
  destruct (rstrip (lstrip s)) as [|c r]; [exact I|].
  rewrite H in Hl. exact Hl.
Qed.

Lemma str_strip_ends_clean (s : str) : starts_clean (rev (str_strip s)).
Proof.
  unfold str_strip, rstrip. rewrite rev_involutive. apply lstrip_starts_clean.
Qed.

Lemma str_strip_fixed (s : str) :
  starts_clean s → starts_clean (rev s) → str_strip s = s.
Proof.
  intros H1 H2. unfold str_strip, rstrip.
  rewrite (lstrip_fixed s H1), (lstrip_fixed _ H2). apply rev_involutive.
Qed.

Lemma str_strip_idempotent (s : str) : str_strip (str_strip s) = str_strip s.
Proof.
  apply str_strip_fixed; [apply str_strip_starts_clean | apply str_strip_ends_clean].
Qed.

Lemma lstrip_elem (c : N) (s : str) : c ∈ lstrip s → c ∈ s.
Proof.
  destruct (lstrip_suffix s) as (sp & H & _). intros Hc.
  rewrite H. apply elem_of_app. right. exact Hc.
Qed.

Lemma str_strip_elem (c : N) (s : str) : c ∈ str_strip s → c ∈ s.
Proof.
  unfold str_strip, rstrip. intros H.
  apply list_elem_of_In, in_rev, list_elem_of_In, lstrip_elem in H.
  apply list_elem_of_In, in_rev, list_elem_of_In, lstrip_elem in H. exact H.
Qed.

Lemma str_remove_char (k c : N) (s : str) :
  c ∈ str_replace [k] [] s ↔ c ∈ s ∧ c ≠ k.
Proof.
  rewrite str_replace_char. induction s as [|x s IH].
  - simpl. split; [intros H; inversion H | intros [H _]; inversion H].
  - cbn [flat_map]. rewrite elem_of_app, IH, elem_of_cons. unfold subst_char.
    destruct (N.eqb_spec k x) as [->|Hne].
    + split; [intros [H|H]; [inversion H | tauto] | intros [[->|H] Hc]; [congruence | tauto]].
    + rewrite list_elem_of_singleton. split.
      * intros [->|[H Hc]]; [split; [left; reflexivity | congruence] | tauto].
      * intros [[->|H] Hc]; [left; reflexivity | tauto].
Qed.

(** X7: the text handed to [float] for a [Total:] or [GST:] line holds
    no comma and no rupee sign, and neither starts nor ends with white
    space. *)
Theorem money_text_clean (label line : str) :
  (44%N ∉ money_text label line)
  ∧ (RUPEE ∉ money_text label line)
  ∧ starts_clean (money_text label line)
  ∧ starts_clean (rev (money_text label line))
  ∧ str_strip (money_text label line) = money_text label line.
Proof.
  unfold money_text. repeat split.
  - intros H. apply str_strip_elem, (str_remove_char 44) in H as [_ H].
    apply H. reflexivity.
  - intros H. apply str_strip_elem, (str_remove_char 44) in H as [H _].
    apply str_remove_char in H as [_ H]. apply H. reflexivity.
  - apply str_strip_starts_clean.
  - apply str_strip_ends_clean.
  - apply str_strip_idempotent.
Qed.

Lemma str_split_char_pieces (sep : N) (s : str) :
  Forall (fun piece => sep ∉ piece) (str_split [sep] s).
Proof.
  unfold str_split. induction s as [|c s IH].
  - repeat constructor. intros H. inversion H.
  - cbn [str_split_from is_prefix length Nat.sub]. rewrite andb_true_r.
    destruct (N.eqb_spec sep c) as [->|Hne].
    + constructor; [intros H; inversion H | exact IH].
    + destruct (str_split_from [sep] 0 s) as [|w ws].
      * repeat constructor. intros H.
        apply list_elem_of_singleton in H. congruence.
      * inversion IH as [|? ? Hw Hws]; subst. constructor; [|exact Hws].
        intros H. apply elem_of_cons in H as [->|H]; [congruence | contradiction].
Qed.

(** X8: the compliance flags read from the text area are the lines that
    are not blank, each without leading or trailing white space: no flag
    is empty, none holds a line break, and stripping one again changes
    nothing; there is no flag exactly when every line is blank. *)
Theorem risk_flags_are_stripped_lines (text : str) :
  (∀ flag, flag ∈ parse_risk_flags text →
     flag ≠ [] ∧ (NL ∉ flag) ∧ str_strip flag = flag
     ∧ ∃ line, line ∈ str_split [NL] text ∧ flag = str_strip line)
  ∧ (parse_risk_flags text = []
     ↔ ∀ line, line ∈ str_split [NL] text → str_strip line = []).
Proof.
  unfold parse_risk_flags. split.
  - intros flag Hflag.
    apply list_elem_of_In, in_map_iff in Hflag as (line & <- & Hline).
    apply filter_In in Hline as [Hline Hnb].
    split; [unfold nonblank in Hnb; destruct (str_strip line); congruence|].
    split; [|split; [apply str_strip_idempotent|]].
    + intros H. apply str_strip_elem in H.
      pose proof (str_split_char_pieces NL text) as Hall.
      rewrite Forall_forall in Hall.
      apply (Hall line); [apply list_elem_of_In, Hline | exact H].
    + exists line. split; [apply list_elem_of_In, Hline | reflexivity].
  - split.
    + intros Hnil line Hline.
      destruct (str_strip line) as [|c r] eqn:Hs; [reflexivity|].
      assert (Hin : In line (List.filter nonblank (str_split [NL] text))).
      { apply filter_In. split; [apply list_elem_of_In, Hline|].
        unfold nonblank. rewrite Hs. reflexivity. }
      destruct (List.filter nonblank (str_split [NL] text)); [inversion Hin | discriminate].
    + intros Hall.
      destruct (List.filter nonblank (str_split [NL] text)) as [|l ls] eqn:Hf;
        [reflexivity|].
      assert (Hin : In l (List.filter nonblank (str_split [NL] text)))
        by (rewrite Hf; left; reflexivity).
      apply filter_In in Hin as [Hl Hnb]. unfold nonblank in Hnb.
      rewrite (Hall l) in Hnb by (apply list_elem_of_In, Hl). discriminate.
Qed.

(** ** Dates and the window *)

Lemma check_range (P : Z → bool) (n : nat) :
  forallb P (map Z.of_nat (seq 1 n)) = true →
  ∀ z, 1 <= z <= Z.of_nat n → P z = true.
Proof.
  intros H z Hz. rewrite forallb_forall in H. apply H.
  replace z with (Z.of_nat (Z.to_nat z)) by lia.
  apply in_map, in_seq. lia.
Qed.

Lemma year_fields (y : Z) : 1 <= y <= 9999 → year_field_ok y = true.
Proof. apply (check_range year_field_ok 9999). vm_compute. reflexivity. Qed.

Lemma month_fields (m : Z) : 1 <= m <= 12 → month_field_ok m = true.
Proof. apply (check_range month_field_ok 12). vm_compute. reflexivity. Qed.

Lemma day_fields (d : Z) : 1 <= d <= 31 → day_field_ok d = true.
Proof. apply (check_range day_field_ok 31). vm_compute. reflexivity. Qed.

Lemma days_in_month_le_31 (y m : Z) : days_in_month y m <= 31.
Proof.
  unfold days_in_month.
  repeat match goal with |- context [if ?b then _ else _] => destruct b end; lia.
Qed.

Lemma date_valid_bounds (y m d : Z) :
  date_valid y m d = true →
  1 <= y <= 9999 ∧ 1 <= m <= 12 ∧ 1 <= d <= days_in_month y m.
Proof.
  unfold date_valid. rewrite !andb_true_iff, !Z.leb_le. lia.
Qed.

(** X9: printing a date in ISO form and parsing it as the filter does
    gives the date back; hence a document stamped with the ISO form of a
    date is in a window exactly when that date lies between its ends. *)
Theorem strptime_isoformat (d : date) :
  valid_date d →
  strptime_ymd (isoformat d) = Some d
  ∧ ∀ (doc : Document) (start_date end_date : date),
      doc_date doc = isoformat d →
      in_window start_date end_date doc
      = date_leb start_date d && date_leb d end_date.
Proof.
  intros Hvalid.
  assert (Hparse : strptime_ymd (isoformat d) = Some d).
  { destruct d as [y m dd]. unfold valid_date in Hvalid. cbn [year month day] in Hvalid.
    destruct (date_valid_bounds _ _ _ Hvalid) as (Hy & Hm & Hd).
    pose proof (year_fields y Hy) as Hyf.
    pose proof (month_fields m Hm) as Hmf.
    assert (Hdf : day_field_ok dd = true).
    { apply day_fields. pose proof (days_in_month_le_31 y m). lia. }
    unfold isoformat. cbn [year month day].
    unfold year_field_ok in Hyf. unfold month_field_ok in Hmf. unfold day_field_ok in Hdf.
    destruct (zfill 4 (str_of_Z y)) as [|a [|b [|c [|e [|? ?]]]]]; try discriminate.
    destruct (zfill 2 (str_of_Z m)) as [|ma [|mb [|? ?]]]; try discriminate.
    destruct (zfill 2 (str_of_Z dd)) as [|da [|db [|? ?]]]; try discriminate.
    apply andb_true_iff in Hyf as [Hdig Hyv]. apply Z.eqb_eq in Hyv.
    apply andb_true_iff in Hmf as [Hmc Hmv]. apply Z.eqb_eq in Hmv.
    apply andb_true_iff in Hdf as [Hdc Hdv]. apply Z.eqb_eq in Hdv.
    change (lit "-") with [45%N]. cbn [app].
    unfold strptime_ymd. rewrite Hdig.
    unfold parse_month. rewrite Hmc.
    unfold parse_day. rewrite Hdc.
    rewrite Hyv, Hmv, Hdv, Hvalid. reflexivity. }
  split; [exact Hparse|].
  intros doc start_date end_date Hdoc. unfold in_window.
  rewrite Hdoc, Hparse. reflexivity.
Qed.

Lemma strptime_isoformat_witness :
  strptime_ymd (isoformat (mkdate 2024 2 29)) = Some (mkdate 2024 2 29).
Proof. apply strptime_isoformat. vm_compute. reflexivity. Defined.

Lemma date_leb_spec (a b : date) :
  date_leb a b = true
  ↔ year a < year b
    ∨ year a = year b
      ∧ (month a < month b ∨ month a = month b ∧ day a <= day b).
Proof.
  unfold date_leb.
  rewrite !orb_true_iff, !andb_true_iff, !orb_true_iff, !andb_true_iff,
    !Z.ltb_lt, !Z.eqb_eq, Z.leb_le.
  reflexivity.
Qed.






Lemma days_before_year_succ (y : Z) :
  days_before_year (y + 1) = days_before_year y + (if is_leap y then 366 else 365).
Proof.
  unfold days_before_year, is_leap.
  replace (y + 1 - 1) with y by lia.
  destruct (Z.eqb_spec (y mod 4) 0), (Z.eqb_spec (y mod 100) 0),
    (Z.eqb_spec (y mod 400) 0); cbn [negb orb andb];
    Z.div_mod_to_equations; lia.
Qed.

Lemma days_before_year_mono (y1 y2 : Z) :
  y1 <= y2 → days_before_year y1 <= days_before_year y2.
Proof.
  unfold days_before_year. intros H. Z.div_mod_to_equations. lia.
Qed.

Lemma month_cases (m : Z) :
  1 <= m <= 12 →
  m = 1 ∨ m = 2 ∨ m = 3 ∨ m = 4 ∨ m = 5 ∨ m = 6 ∨ m = 7 ∨ m = 8 ∨ m = 9
  ∨ m = 10 ∨ m = 11 ∨ m = 12.
Proof. lia. Qed.

Ltac each_month H :=
  apply month_cases in H;
  repeat (destruct H as [H|H]; [subst|]); subst.

Lemma day_of_year_bounds (y m d : Z) :
  1 <= m <= 12 → 1 <= d <= days_in_month y m →
  1 <= days_before_month y m + d <= (if is_leap y then 366 else 365).
Proof.
  intros Hm. each_month Hm;
    unfold days_before_month, days_in_month; simpl;
    unfold days_in_month; simpl; destruct (is_leap y); lia.
Qed.

Lemma day_of_year_mono (y m1 m2 d1 d2 : Z) :
  1 <= m1 <= 12 → 1 <= m2 <= 12 → m1 < m2 →
  1 <= d1 <= days_in_month y m1 → 1 <= d2 <= days_in_month y m2 →
  days_before_month y m1 + d1 < days_before_month y m2 + d2.
Proof.
  intros H1 H2. each_month H1; each_month H2; intros Hlt; try lia;
    unfold days_before_month, days_in_month; simpl;
    unfold days_in_month; simpl; destruct (is_leap y); lia.
Qed.

(** The day count of [toordinal] follows the order of the dates. *)
Lemma toordinal_mono (a b : date) :
  valid_date a → valid_date b → date_leb a b = true →
  toordinal a <= toordinal b ∧ (toordinal a = toordinal b → a = b).
Proof.
  destruct a as [ya ma da], b as [yb mb db]. unfold valid_date, toordinal.
  cbn [year month day]. intros Ha Hb Hle.
  apply date_valid_bounds in Ha as (Hya & Hma & Hda).
  apply date_valid_bounds in Hb as (Hyb & Hmb & Hdb).
  apply date_leb_spec in Hle. cbn [year month day] in Hle.
  pose proof (day_of_year_bounds ya ma da Hma Hda) as Ba.
  pose proof (day_of_year_bounds yb mb db Hmb Hdb) as Bb.
  destruct Hle as [Hy|[-> Hle]].
  - pose proof (days_before_year_succ ya) as Hs.
    pose proof (days_before_year_mono (ya + 1) yb ltac:(lia)) as Hmono.
    split; [lia | intros; lia].
  - destruct Hle as [Hm|[-> Hd]].
    + pose proof (day_of_year_mono yb ma mb da db Hma Hmb Hm Hda Hdb).
      split; [lia | intros; lia].
    + split; [lia | intros; f_equal; lia].
Qed.

(** X12: for a window between two dates in order, the number of days
    reported is at least one, and it is one exactly when the window is a
    single day. *)
Theorem duration_days_positive (start_date end_date : date)
    (filtered_docs : list Document) (m : Metrics) :
  valid_date start_date → valid_date end_date →
  date_leb start_date end_date = true →
  financials start_date end_date filtered_docs = Ok m →
  1 <= duration_days m
  ∧ duration_days m = toordinal end_date - toordinal start_date + 1
  ∧ (duration_days m = 1 ↔ start_date = end_date).
Proof.
  intros Hs He Hle Hm.
  destruct filtered_docs as [|d docs]; [discriminate|].
  rewrite financials_nonempty in Hm. apply Ok_inj in Hm. subst m.
  cbn [duration_days]. unfold days_between.
  destruct (toordinal_mono _ _ Hs He Hle) as [H1 H2].
  split; [lia|]. split; [reflexivity|]. split.
  - intros H. apply H2. lia.
  - intros ->. lia.
Qed.

Lemma duration_days_positive_witness :
  ∃ m, financials (mkdate 2023 6 1) (mkdate 2023 6 30) [INV_101] = Ok m
       ∧ 1 <= duration_days m ∧ duration_days m = 30.
Proof.
  eexists. split; [reflexivity|].
  match goal with |- 1 <= duration_days ?m ∧ _ =>
    destruct (duration_days_positive (mkdate 2023 6 1) (mkdate 2023 6 30) [INV_101] m)
      as (H1 & _ & _); [vm_compute; reflexivity .. |] end.
  split; [exact H1 | vm_compute; reflexivity].
Defined.

(** ** Totals and the text of the report *)

Lemma of_type_other (ty : str) (d : Document) (docs : list Document) :
  doc_type d ≠ ty → of_type ty (d :: docs) = of_type ty docs.
Proof.
  intros H. unfold of_type. cbn [List.filter].
  rewrite bool_decide_eq_false_2 by exact H. reflexivity.
Qed.

(** X13: a document whose type is neither [income] nor [expense] is
    counted among the transactions processed and in no total: adding it
    to the window raises the count by one and leaves the totals, the
    balance and both ratios as they were; alone in the window it gives
    zero totals. *)
Theorem other_types_counted_in_no_total (start_date end_date : date)
    (documents : list Document) (d : Document) :
  doc_type d ≠ lit "income" → doc_type d ≠ lit "expense" →
  in_window start_date end_date d = true →
  (∀ m, financials start_date end_date (filter_by_date start_date end_date documents)
        = Ok m →
        financials start_date end_date
          (filter_by_date start_date end_date (d :: documents))
        = Ok (mkMetrics (S (total_invoices m)) (total_income m) (total_expense m)
                (net_balance m) (expense_ratio m) (profit_margin m)
                (duration_days m)))
  ∧ financials start_date end_date (filter_by_date start_date end_date [d])
    = Ok (mkMetrics 1 fzero fzero fzero fzero fzero
            (days_between start_date end_date + 1)).
Proof.
  intros Hinc Hexp Hw. unfold filter_by_date. cbn [List.filter]. rewrite Hw. split.
  - intros m Hm.
    destruct (List.filter (in_window start_date end_date) documents) as [|x xs];
      [discriminate|].
    rewrite financials_nonempty in Hm. apply Ok_inj in Hm. subst m.
    rewrite financials_nonempty.
    rewrite !(of_type_other _ d (x :: xs)) by assumption. reflexivity.
  - rewrite financials_nonempty.
    rewrite !(of_type_other _ d []) by assumption. reflexivity.
Qed.

Lemma other_types_counted_in_no_total_witness :
  ∃ m, financials (mkdate 2023 6 1) (mkdate 2023 6 30)
         (filter_by_date (mkdate 2023 6 1) (mkdate 2023 6 30) [TRANSFER_1; INV_101])
       = Ok m
       ∧ total_invoices m = 2%nat ∧ total_income m = float_of_Z 150000
       ∧ total_expense m = fzero.
Proof.
  destruct (other_types_counted_in_no_total (mkdate 2023 6 1) (mkdate 2023 6 30)
              [INV_101] TRANSFER_1) as [H _];
    [vm_compute; discriminate | vm_compute; discriminate | vm_compute; reflexivity|].
  eexists. split; [apply H; reflexivity|]. repeat split.
Defined.

Lemma summary_section_ratios (business_name : str) (start_date end_date : date)
    (m : Metrics) :
  ∃ pre post,
    summary_section business_name start_date end_date m
    = pre ++ lit "- **Profit Margin**: " ++ format_fixed false 1 (profit_margin m)
          ++ lit "%" ++ [NL]
          ++ lit "- **Expense Ratio**: " ++ format_fixed false 1 (expense_ratio m)
          ++ lit "% of income" ++ [NL] ++ post.
Proof.
  unfold summary_section.
  exists (lit "# " ++ business_name ++ lit " - Audit Report" ++ [NL]
          ++ lit "## Period: " ++ isoformat start_date ++ lit " to "
          ++ isoformat end_date
          ++ lit " (" ++ str_of_Z (duration_days m) ++ lit " days)" ++ [NL; NL]
          ++ lit "## Executive Summary" ++ [NL; NL]
          ++ lit "- **Financial Overview**: Net balance of Rs."
          ++ format_fixed true 2 (net_balance m) ++ lit " "
          ++ lit "(Income: Rs." ++ format_fixed true 2 (total_income m)
          ++ lit ", Expenses: Rs." ++ format_fixed true 2 (total_expense m)
          ++ lit ")" ++ [NL]),
         (lit "- **Transactions Processed**: "
          ++ str_of_Z (Z.of_nat (total_invoices m)) ++ [NL; NL]).
  rewrite <- !app_assoc. reflexivity.
Qed.

Lemma recommendations_pricing (filtered_docs : list Document) (risk_flags : list str)
    (m : Metrics) :
  flt (profit_margin m) f15 = true →
  ∃ pre post,
    recommendations_section filtered_docs risk_flags m
    = pre ++ lit "### Strategic Actions" ++ [NL]
          ++ lit "- Review pricing strategy" ++ [NL] ++ post.
Proof.
  intros H. unfold recommendations_section. rewrite H.
  eexists ([NL] ++ lit "## Recommendations" ++ [NL; NL]
           ++ lit "### Immediate Actions" ++ [NL]
           ++ (match gst_docs_of filtered_docs with
               | _ :: _ => lit "- Reconcile GST input credits" ++ [NL]
               | [] => []
               end)
           ++ (match risk_flags with
               | _ :: _ => lit "- Address compliance flags" ++ [NL]
               | [] => []
               end)
           ++ [NL]),
          (if (50 <? Z.of_nat (length filtered_docs))
           then lit "- Consider accounting software for better tracking" ++ [NL]
           else []).
  rewrite <- !app_assoc. reflexivity.
Qed.

(** The report, when produced, as the sequence of its sections. *)
Lemma report_sections (rt : Runtime) (business_name : str) (start_date end_date : date)
    (documents : list Document) (risk_flags : list str) (report : str) :
  generate_audit_report rt business_name start_date end_date documents risk_flags
  = Ok report →
  let filtered_docs := filter_by_date start_date end_date documents in
  ∃ m cash_flow rest,
    financials start_date end_date filtered_docs = Ok m
    ∧ filtered_docs ≠ []
    ∧ report = summary_section business_name start_date end_date m
               ++ cash_flow
               ++ gst_section rt filtered_docs
               ++ ([NL] ++ lit "## AI Insights" ++ rest)
               ++ recommendations_section filtered_docs risk_flags m
               ++ footer rt.
Proof.
  intros Hreport filtered_docs. subst filtered_docs.
  unfold generate_audit_report in Hreport.
  destruct (filter_by_date start_date end_date documents) as [|d docs];
    [discriminate|].
  rewrite financials_nonempty in *. cbn [mbind result_bind] in Hreport.
  destruct (cash_flow_nonempty rt d docs) as [cf Hcf].
  rewrite Hcf in Hreport. cbn [mbind result_bind] in Hreport.
  match type of Hreport with context [insights_section rt ?df ?m] =>
    destruct (insights_heading rt d docs m) as [rest Hins] end.
  rewrite Hins in Hreport. cbn [mbind result_bind] in Hreport.
  apply Ok_inj in Hreport. subst report.
  eexists _, cf, rest. split; [reflexivity|]. split; [discriminate | reflexivity].
Qed.

Lemma occurs_in_middle (x a b : str) : occurs_in x (a ++ x ++ b).
Proof. exists a, b. reflexivity. Qed.

Lemma occurs_in_left (x a b : str) : occurs_in x a → occurs_in x (a ++ b).
Proof.
  intros (p & q & ->). exists p, (q ++ b). rewrite <- !app_assoc. reflexivity.
Qed.

Lemma occurs_in_right (x a b : str) : occurs_in x b → occurs_in x (a ++ b).
Proof.
  intros (p & q & ->). exists (a ++ p), q. rewrite <- !app_assoc. reflexivity.
Qed.

(** X14: when the window holds documents but none of type [income], the
    report is produced with both ratios printed as 0.0 (nothing is
    divided), and it recommends a review of the pricing. *)
Theorem no_income_report (rt : Runtime) (business_name : str)
    (start_date end_date : date) (documents : list Document)
    (risk_flags : list str) :
  filter_by_date start_date end_date documents ≠ [] →
  of_type (lit "income") (filter_by_date start_date end_date documents) = [] →
  ∃ report,
    generate_audit_report rt business_name start_date end_date documents risk_flags
    = Ok report
    ∧ occurs_in (lit "- **Profit Margin**: 0.0%" ++ [NL]
                 ++ lit "- **Expense Ratio**: 0.0% of income" ++ [NL]) report
    ∧ occurs_in (lit "### Strategic Actions" ++ [NL]
                 ++ lit "- Review pricing strategy" ++ [NL]) report.
Proof.
  intros Hne Hinc.
  destruct (report_nonempty rt business_name start_date end_date documents
              risk_flags Hne) as [report Hreport].
  exists report. split; [exact Hreport|].
  destruct (report_sections _ _ _ _ _ _ _ Hreport) as (m & cf & rest & Hm & _ & ->).
  assert (Hzero : profit_margin m = fzero ∧ expense_ratio m = fzero).
  { destruct (filter_by_date start_date end_date documents) as [|d docs];
      [contradiction|].
    rewrite financials_nonempty in Hm. apply Ok_inj in Hm. subst m.
    cbn [profit_margin expense_ratio]. rewrite Hinc. split; reflexivity. }
  destruct Hzero as [Hpm Her]. split.
  - apply occurs_in_left.
    destruct (summary_section_ratios business_name start_date end_date m)
      as (pre & post & ->).
    rewrite Hpm, Her.
    change (format_fixed false 1 fzero) with (lit "0.0").
    exists pre, post. rewrite <- !app_assoc. reflexivity.
  - do 4 apply occurs_in_right. apply occurs_in_left.
    destruct (recommendations_pricing (filter_by_date start_date end_date documents)
                risk_flags m) as (pre & post & ->).
    { rewrite Hpm. reflexivity. }
    exists pre, post. rewrite <- !app_assoc. reflexivity.
Qed.

Lemma no_income_report_witness :
  ∃ report,
    generate_audit_report example_runtime (lit "Acme") (mkdate 2023 6 1)
      (mkdate 2023 6 30) [GSTIN_AB123] [] = Ok report
    ∧ occurs_in (lit "- **Profit Margin**: 0.0%" ++ [NL]
                 ++ lit "- **Expense Ratio**: 0.0% of income" ++ [NL]) report.
Proof.
  destruct (no_income_report example_runtime (lit "Acme") (mkdate 2023 6 1)
              (mkdate 2023 6 30) [GSTIN_AB123] []) as (report & H1 & H2 & _).
  - vm_compute. discriminate.
  - vm_compute. reflexivity.
  - exists report. split; assumption.
Defined.

(** X15: when no document of the window has a GST above zero, the GST
    section of the report is its heading followed by the line that no
    GST-related transaction was found, and the next section follows. *)
Theorem no_gst_sentinel (rt : Runtime) (business_name : str)
    (start_date end_date : date) (documents : list Document)
    (risk_flags : list str) (report : str) :
  generate_audit_report rt business_name start_date end_date documents risk_flags
  = Ok report →
  (∀ d, d ∈ filter_by_date start_date end_date documents →
        fgt (doc_gst d) fzero = false) →
  occurs_in ([NL] ++ lit "## GST Compliance" ++ [NL; NL]
             ++ lit "- No GST-related transactions found" ++ [NL]
             ++ [NL] ++ lit "## AI Insights") report.
Proof.
  intros Hreport Hno.
  destruct (report_sections _ _ _ _ _ _ _ Hreport) as (m & cf & rest & _ & _ & ->).
  assert (Hg : gst_docs_of (filter_by_date start_date end_date documents) = []).
  { unfold gst_docs_of. revert Hno.
    generalize (filter_by_date start_date end_date documents). intros l.
    induction l as [|d ds IH]; intros Hno; [reflexivity|].
    cbn [List.filter]. rewrite (Hno d) by left.
    apply IH. intros x Hx. apply Hno. right. exact Hx. }
  unfold gst_section. rewrite Hg.
  exists (summary_section business_name start_date end_date m ++ cf),
         (rest ++ recommendations_section
                    (filter_by_date start_date end_date documents) risk_flags m
          ++ footer rt).
  rewrite <- !app_assoc. reflexivity.
Qed.

Lemma no_gst_sentinel_witness :
  ∃ report,
    generate_audit_report example_runtime (lit "Acme") (mkdate 2023 6 1)
      (mkdate 2023 6 30) [TRANSFER_1] [] = Ok report
    ∧ occurs_in ([NL] ++ lit "## GST Compliance" ++ [NL; NL]
                 ++ lit "- No GST-related transactions found" ++ [NL]
                 ++ [NL] ++ lit "## AI Insights") report.
Proof.
  destruct (report_nonempty example_runtime (lit "Acme") (mkdate 2023 6 1)
              (mkdate 2023 6 30) [TRANSFER_1] []) as [report Hreport].
  { vm_compute. discriminate. }
  exists report. split; [exact Hreport|].
  apply (no_gst_sentinel _ _ _ _ _ _ _ Hreport).
  intros d Hd. vm_compute in Hd.
  apply elem_of_cons in Hd as [->|Hd]; [vm_compute; reflexivity | inversion Hd].
Defined.

(** ** Rendering *)

Lemma replaced_chars_high : Forall (fun k => (256 <= k)%N) replaced_chars.
Proof.
  assert (H : forallb (fun k => (256 <=? k)%N) replaced_chars = true)
    by (vm_compute; reflexivity).
  rewrite forallb_forall in H. apply Forall_forall. intros k Hk.
  apply N.leb_le, H, list_elem_of_In, Hk.
Qed.

Lemma sanitize_char_latin1 (c : N) : (c < 256)%N → sanitize_char c = [c].
Proof.
  intros Hc. unfold sanitize_char. rewrite subst_all_other.
  - simpl. unfold latin1_char. destruct (N.ltb_spec c 256); [reflexivity | lia].
  - exact replacements_single.
  - intros Hin. pose proof replaced_chars_high as Hall.
    rewrite Forall_forall in Hall. specialize (Hall c Hin). lia.
Qed.

Lemma cleaned_is_latin1 (text : str) : latin1 (flat_map sanitize_char text).
Proof.
  unfold latin1. induction text as [|c t IH]; [constructor|].
  simpl. apply Forall_app. split; [|exact IH].
  unfold sanitize_char. apply List.Forall_map, Forall_forall.
  intros x _. apply latin1_char_bound.
Qed.

(** X16: sanitization leaves a text that is already within Latin-1 as
    it is; so sanitizing twice gives what sanitizing once gives. *)
Theorem clean_text_fixes_latin1 (text : str) :
  (latin1 text → clean_text text = Ok text)
  ∧ (∀ out, clean_text text = Ok out → clean_text out = Ok out).
Proof.
  assert (Hfix : ∀ t, latin1 t → clean_text t = Ok t).
  { intros t Ht. rewrite clean_text_chars. f_equal.
    induction Ht as [|c t Hc _ IH]; [reflexivity|].
    cbn [flat_map]. rewrite (sanitize_char_latin1 c Hc), IH. reflexivity. }
  split; [apply Hfix|].
  intros out Hout. rewrite clean_text_chars in Hout. apply Ok_inj in Hout.
  subst out. apply Hfix, cleaned_is_latin1.
Qed.

Lemma clean_text_fixes_latin1_witness :
  clean_text (lit "Net balance of Rs.100,000.00") = Ok (lit "Net balance of Rs.100,000.00").
Proof.
  apply (proj1 (clean_text_fixes_latin1 _)).
  unfold latin1. simpl. repeat constructor.
Defined.

Lemma clean_text_Ok (text : str) : ∃ out, clean_text text = Ok out ∧ latin1 out.
Proof.
  exists (flat_map sanitize_char text).
  split; [apply clean_text_chars | apply cleaned_is_latin1].
Qed.

Lemma pdf_text_Ok (txt : str) : latin1 txt → pdf_text txt = Ok txt.
Proof. intros H. unfold pdf_text. rewrite (encode_latin1_strict _ H). reflexivity. Qed.

Lemma mapM_Ok {A B} (f : A → result B) (P : B → Prop) (l : list A) :
  (∀ x, x ∈ l → ∃ y, f x = Ok y ∧ P y) →
  ∃ ys, mapM f l = Ok ys ∧ Forall P ys.
Proof.
  induction l as [|x l IH]; intros H.
  - exists []. split; [reflexivity | constructor].
  - destruct (H x) as (y & Hy & Py); [left|].
    destruct IH as (ys & Hys & Pys); [intros; apply H; right; assumption|].
    exists (y :: ys). cbn [mapM]. rewrite Hy. cbn [mbind result_bind].
    rewrite Hys. split; [reflexivity | constructor; assumption].
Qed.

Lemma str_split_from_pieces (P : N → Prop) (sep : str) (s : str) (skip : nat) :
  Forall P s → Forall (Forall P) (str_split_from sep skip s).
Proof.
  intros Hs. revert skip. induction Hs as [|c s Hc _ IH]; intros skip.
  - repeat constructor.
  - cbn [str_split_from]. destruct skip as [|k]; [|apply IH].
    destruct (is_prefix sep (c :: s)).
    + constructor; [constructor | apply IH].
    + specialize (IH 0%nat). destruct (str_split_from sep 0 s) as [|w ws].
      * repeat constructor. exact Hc.
      * inversion IH; subst. constructor; [constructor|]; assumption.
Qed.

Lemma str_join_latin1 (sep : str) (parts : list str) :
  latin1 sep → Forall latin1 parts → latin1 (str_join sep parts).
Proof.
  intros Hsep. unfold latin1 in *. induction 1 as [|p ps Hp Hps IH]; [constructor|].
  cbn [str_join]. destruct ps as [|q qs]; [exact Hp|].
  apply Forall_app. split; [exact Hp|]. apply Forall_app. split; [exact Hsep | exact IH].
Qed.

Lemma str_strip_latin1 (s : str) : latin1 s → latin1 (str_strip s).
Proof.
  unfold latin1. rewrite !Forall_forall. intros H c Hc.
  apply H, str_strip_elem, Hc.
Qed.

Lemma section_texts_Ok (section : str) :
  ∃ texts, section_texts section = Ok texts ∧ Forall latin1 texts.
Proof.
  unfold section_texts.
  destruct (clean_text_Ok (hd [] (str_split [NL] section))) as (title & -> & Htitle).
  cbn [mbind result_bind].
  destruct (mapM_Ok clean_text latin1 (tl (str_split [NL] section)))
    as (lines & -> & Hlines); [intros; apply clean_text_Ok|].
  cbn [mbind result_bind].
  rewrite (pdf_text_Ok _ Htitle). cbn [mbind result_bind].
  assert (Hcontent : latin1 (str_join [NL] lines)).
  { apply str_join_latin1; [repeat constructor | exact Hlines]. }
  destruct (mapM_Ok (fun line => pdf_text (str_strip line)) latin1
              (List.filter nonblank (str_split [NL] (str_join [NL] lines))))
    as (body & -> & Hbody).
  { intros line Hline. exists (str_strip line).
    assert (Hl : latin1 line).
    { apply list_elem_of_In, filter_In in Hline as [Hline _].
      pose proof (str_split_from_pieces _ [NL] _ 0 Hcontent) as Hall.
      rewrite Forall_forall in Hall. apply Hall, list_elem_of_In, Hline. }
    split; [apply pdf_text_Ok|]; apply str_strip_latin1, Hl. }
  eexists. split; [reflexivity|]. constructor; assumption.
Qed.

Lemma pdf_texts_Ok (report_text business_name : str) (start_date end_date : date) :
  ∃ texts, pdf_texts report_text business_name start_date end_date = Ok texts
           ∧ Forall latin1 texts.
Proof.
  unfold pdf_texts.
  destruct (clean_text_Ok (business_name ++ lit " - Audit Report")) as (h1 & -> & H1).
  cbn [mbind result_bind]. rewrite (pdf_text_Ok _ H1). cbn [mbind result_bind].
  destruct (clean_text_Ok (lit "Period: " ++ isoformat start_date ++ lit " to "
                           ++ isoformat end_date)) as (h2 & -> & H2).
  cbn [mbind result_bind]. rewrite (pdf_text_Ok _ H2). cbn [mbind result_bind].
  destruct (mapM_Ok section_texts (Forall latin1)
              (tl (str_split (lit "## ") report_text)))
    as (sections & -> & Hsections); [intros; apply section_texts_Ok|].
  eexists. split; [reflexivity|].
  constructor; [exact H1|]. constructor; [exact H2|].
  induction Hsections as [|x xs Hx _ IH]; [constructor|].
  simpl. apply Forall_app. split; assumption.
Qed.

(** X17: [create_pdf] never raises, whatever the report text and the
    business name hold: every text handed to the writer is within its
    encoding, one file is written under a name that was not in use, and
    the files there were are left as they are. *)
Theorem create_pdf_always_writes (report_text business_name : str)
    (start_date end_date : date) (files : Files) :
  ∃ pdf_path texts,
    create_pdf report_text business_name start_date end_date files
    = (<[pdf_path := texts]> files, Ok pdf_path)
    ∧ pdf_texts report_text business_name start_date end_date = Ok texts
    ∧ Forall latin1 texts
    ∧ files !! pdf_path = None
    ∧ ∀ p, p ≠ pdf_path → (<[pdf_path := texts]> files) !! p = files !! p.
Proof.
  destruct (pdf_texts_Ok report_text business_name start_date end_date)
    as (texts & Htexts & Hlatin).
  exists (fresh (dom files)), texts. unfold create_pdf. rewrite Htexts.
  split; [reflexivity|]. split; [reflexivity|]. split; [exact Hlatin|].
  split; [apply not_elem_of_dom, is_fresh|].
  intros p Hp. apply lookup_insert_ne. congruence.
Qed.

(** ** The download and the rest of [main] *)

Lemma create_pdf_shape (report_text business_name : str)
    (start_date end_date : date) (files : Files) :
  ∃ pdf_path texts,
    create_pdf report_text business_name start_date end_date files
    = (<[pdf_path := texts]> files, Ok pdf_path)
    ∧ files !! pdf_path = None.
Proof.
  destruct (pdf_texts_Ok report_text business_name start_date end_date)
    as (texts & Htexts & _).
  exists (fresh (dom files)), texts. unfold create_pdf. rewrite Htexts.
  split; [reflexivity | apply not_elem_of_dom, is_fresh].
Qed.

Lemma offer_download_returns (consumer : list str → result unit)
    (report business_name : str) (start_date end_date : date)
    (files files' : Files) (u : unit) :
  offer_download consumer report business_name start_date end_date files
  = (files', Ok u) →
  files' = files.
Proof.
  unfold offer_download.
  destruct (create_pdf_shape report business_name start_date end_date files)
    as (pdf_path & texts & -> & Hfresh).
  unfold hand_off. rewrite lookup_insert_eq.
  destruct (consumer texts); [|discriminate].
  intros H. apply (f_equal fst) in H. cbn [fst] in H. subst files'.
  apply delete_insert_id, Hfresh.
Qed.

(** X18: offering the download never touches a file that was there
    before; it can only fail in the hand-off, and then the one file it
    wrote is what it leaves behind; when it returns, nothing is left. *)
Theorem offer_download_outcomes (consumer : list str → result unit)
    (report business_name : str) (start_date end_date : date) (files : Files) :
  let run := offer_download consumer report business_name start_date end_date files in
  (∀ p content, files !! p = Some content → run.1 !! p = Some content)
  ∧ (run.2 = Ok tt → run.1 = files)
  ∧ (∀ e, run.2 = Raise e →
       ∃ pdf_path texts,
         files !! pdf_path = None
         ∧ run.1 = <[pdf_path := texts]> files
         ∧ consumer texts = Raise e).
Proof.
  cbv zeta. unfold offer_download.
  destruct (create_pdf_shape report business_name start_date end_date files)
    as (pdf_path & texts & -> & Hfresh).
  assert (Hother : ∀ p, p ≠ pdf_path →
            (<[pdf_path := texts]> files) !! p = files !! p)
    by (intros p Hp; apply lookup_insert_ne; congruence).
  unfold hand_off. rewrite lookup_insert_eq.
  destruct (consumer texts) as [[]|e] eqn:Hc; cbn [fst snd].
  - rewrite delete_insert_id by exact Hfresh.
    split; [intros; assumption|]. split; [reflexivity | discriminate].
  - split.
    + intros p content Hp. rewrite Hother; [exact Hp | congruence].
    + split; [discriminate|]. intros e' [= <-]. eauto.
Qed.

Lemma offer_download_outcomes_witness :
  (offer_download (fun _ => Raise OSError) short_report (lit "Acme")
     (mkdate 2023 6 1) (mkdate 2023 6 30) {[ 1%positive := [lit "kept"] ]}).1
    !! 1%positive = Some [lit "kept"].
Proof.
  destruct (offer_download_outcomes (fun _ => Raise OSError) short_report (lit "Acme")
              (mkdate 2023 6 1) (mkdate 2023 6 30) {[ 1%positive := [lit "kept"] ]})
    as (H & _ & _).
  apply H. vm_compute. reflexivity.
Defined.

(** X19: pressing the button with no document shows the warning and
    does nothing else; with documents, an exception of the report
    generation leaves the files as they were (no temporary file has
    been made yet), and a report that is shown leaves them as they were
    too; documents none of which is in the window end in the [KeyError]. *)
Theorem generate_clicked_outcomes (rt : Runtime) (consumer : list str → result unit)
    (business_name : str) (start_date end_date : date)
    (documents : list Document) (risk_flags : list str) (files : Files) :
  let run := generate_clicked rt consumer business_name start_date end_date
               documents risk_flags files in
  (documents = [] → run = (files, Ok NoData))
  ∧ (∀ e, generate_audit_report rt business_name start_date end_date
            documents risk_flags = Raise e →
          documents ≠ [] → run = (files, Raise e))
  ∧ (documents ≠ [] → filter_by_date start_date end_date documents = [] →
     run = (files, Raise (KeyError (lit "type"))))
  ∧ (∀ report, run.2 = Ok (Shown report) →
       run.1 = files
       ∧ generate_audit_report rt business_name start_date end_date
           documents risk_flags = Ok report).
Proof.
  cbv zeta. unfold generate_clicked.
  split; [intros ->; reflexivity|].
  split; [intros e He Hne; destruct documents; [contradiction|]; rewrite He; reflexivity|].
  split.
  { intros Hne Hempty. destruct documents as [|d ds] eqn:Hd; [contradiction|].
    rewrite <- Hd in *. unfold generate_audit_report. rewrite Hempty. reflexivity. }
  intros report. destruct documents as [|d ds] eqn:Hd; [discriminate|].
  rewrite <- Hd. clear Hd.
  destruct (generate_audit_report rt business_name start_date end_date
              documents risk_flags) as [r|e]; [|discriminate].
  destruct (offer_download consumer r business_name start_date end_date files)
    as [files' [u|e]] eqn:Hrun; cbn [fst snd] in *; [|discriminate].
  intros H. assert (r = report) as -> by congruence.
  split; [apply (offer_download_returns _ _ _ _ _ _ _ _ Hrun) | reflexivity].
Qed.

Lemma generate_clicked_outcomes_witness :
  generate_clicked example_runtime (fun _ => Ok tt) (lit "Acme Enterprises")
    (mkdate 2026 10 4) (mkdate 2026 11 3) [INV_101; GSTIN_AB123; INV_102]
    [lit "Verify GSTIN details"] ∅
  = (∅, Raise (KeyError (lit "type"))).
Proof.
  destruct (generate_clicked_outcomes example_runtime (fun _ => Ok tt)
              (lit "Acme Enterprises") (mkdate 2026 10 4) (mkdate 2026 11 3)
              [INV_101; GSTIN_AB123; INV_102] [lit "Verify GSTIN details"] ∅)
    as (_ & _ & H & _).
  apply H; [discriminate | vm_compute; reflexivity].
Defined.

Lemma upload_loop_acc (rt : Runtime) (uploaded_files : list UploadedFile)
    (all_docs : list Document) (errors : list (str * exn)) :
  upload_loop rt uploaded_files all_docs errors
  = (all_docs ++ (upload_loop rt uploaded_files [] []).1,
     errors ++ (upload_loop rt uploaded_files [] []).2).
Proof.
  revert all_docs errors.
  induction uploaded_files as [|f rest IH]; intros all_docs errors.
  - simpl. rewrite !app_nil_r. reflexivity.
  - cbn [upload_loop]. destruct (process_file rt f) as [[docs w]|e].
    + rewrite (IH (all_docs ++ docs)), (IH ([] ++ docs)).
      cbn [fst snd app]. rewrite <- app_assoc. reflexivity.
    + rewrite (IH all_docs), (IH [] ([] ++ [(up_name f, e)])).
      cbn [fst snd]. rewrite <- app_assoc. reflexivity.
Qed.

(** X20: the uploaded files are processed independently: the documents
    and the errors of a list of files are those of its parts put
    together; a file on which a reader or the PDF extractor raises adds
    an error under its name and no document, and takes nothing away from
    the files around it. *)
Theorem uploads_are_independent (rt : Runtime) :
  (∀ a b : list UploadedFile,
     upload_documents rt (a ++ b)
     = ((upload_documents rt a).1 ++ (upload_documents rt b).1,
        (upload_documents rt a).2 ++ (upload_documents rt b).2))
  ∧ (∀ (f : UploadedFile) (e : exn),
     process_file rt f = Raise e →
     ∀ a b, upload_documents rt (a ++ f :: b)
            = ((upload_documents rt a).1 ++ (upload_documents rt b).1,
               (upload_documents rt a).2 ++ (up_name f, e)
                 :: (upload_documents rt b).2))
  ∧ (∀ (f : UploadedFile) docs warnings,
     process_file rt f = Ok (docs, warnings) →
     ∀ a b, upload_documents rt (a ++ f :: b)
            = ((upload_documents rt a).1 ++ docs ++ (upload_documents rt b).1,
               (upload_documents rt a).2 ++ (upload_documents rt b).2)).
Proof.
  unfold upload_documents.
  assert (Happ : ∀ a b : list UploadedFile,
            upload_loop rt (a ++ b) [] []
            = ((upload_loop rt a [] []).1 ++ (upload_loop rt b [] []).1,
               (upload_loop rt a [] []).2 ++ (upload_loop rt b [] []).2)).
  { intros a b. induction a as [|f a IH].
    - simpl. destruct (upload_loop rt b [] []); reflexivity.
    - cbn [app upload_loop]. destruct (process_file rt f) as [[docs w]|e].
      + rewrite (upload_loop_acc rt (a ++ b)), (upload_loop_acc rt a), IH.
        cbn [fst snd]. rewrite <- !app_assoc. reflexivity.
      + rewrite (upload_loop_acc rt (a ++ b)), (upload_loop_acc rt a), IH.
        cbn [fst snd]. rewrite <- !app_assoc. reflexivity. }
  split; [exact Happ|]. split.
  - intros f e Hf a b. rewrite Happ. cbn [upload_loop]. rewrite Hf.
    rewrite (upload_loop_acc rt b). cbn [fst snd app]. reflexivity.
  - intros f docs w Hf a b. rewrite Happ. cbn [upload_loop]. rewrite Hf.
    rewrite (upload_loop_acc rt b). cbn [fst snd app]. reflexivity.
Qed.

Lemma uploads_are_independent_witness :
  ∃ d1 d2,
    upload_documents example_runtime ([upload_ledger] ++ upload_bad_invoice :: [upload_ledger])
    = ([d1; d2], [(lit "Scan.PDF", ValueError (lit "abc"))]).
Proof.
  destruct (uploads_are_independent example_runtime) as (_ & Hbad & _).
  rewrite (Hbad upload_bad_invoice (ValueError (lit "abc")));
    [|vm_compute; reflexivity].
  eexists _, _. vm_compute. reflexivity.
Defined.
